(** * nextjs-secrets-poc: the secrets store and the API-key gate

    A shallow embedding of [src/lib/secrets.ts] (the [SecretsManager]
    singleton and its helpers), [src/lib/apiKeyAuth.ts] ([validateApiKey],
    [withApiKeyAuth]) and [src/app/api/secrets/route.ts] ([GET], [POST]).

    JavaScript values are an inductive type, [process.env] is a finite map,
    and the asynchronous, exception-throwing code is written in a small
    state-and-exception monad whose state holds the singleton, the console
    and a trace of the calls that leave the process.

    A string is a [string] of the Standard Library, one character per
    byte (the UTF-8 text that is in the environment and on the wire); the
    methods the code calls on strings ([startsWith], [substring],
    [includes], [join]) are taken on that representation, which agrees
    with JavaScript's on ASCII text.  Where the code cuts a secret by
    position ([substring(0, 8)]) the cut counts UTF-16 code units, as
    JavaScript does ([Str.take_units]); a character outside the basic
    plane is four bytes and two code units, and a surrogate left alone by
    such a cut is held in the three-byte form of generalised UTF-8, which
    [JSON.stringify] writes as an escape ([Json.escape]). *)

From Stdlib Require Import String Ascii ZArith List Bool Lia DecimalString.
From stdpp Require Import base option strings list gmap.

Set Warnings "-register-all".

Local Open Scope string_scope.
Local Open Scope list_scope.

(** ** Strings *)

Module Str.

(** [s.substring(n)]: the string without its first [n] characters. *)
Fixpoint drop (n : nat) (s : string) : string :=
  match n, s with
  | O, _ => s
  | S _, EmptyString => EmptyString
  | S n', String _ s' => drop n' s'
  end.

(** [hay.includes(needle)]: [needle] occurs in [hay] as a substring. *)
Fixpoint includes (needle hay : string) : bool :=
  String.prefix needle hay ||
  match hay with
  | EmptyString => false
  | String _ hay' => includes needle hay'
  end.

(** Last character of a string, if any. *)
Fixpoint last (s : string) : option ascii :=
  match s with
  | EmptyString => None
  | String c EmptyString => Some c
  | String _ s' => last s'
  end.

Definition is_empty (s : string) : bool :=
  match s with EmptyString => true | _ => false end.

(** ASCII lower-casing, byte by byte. *)
Definition lower_ascii (c : ascii) : ascii :=
  let n := nat_of_ascii c in
  if (65 <=? n)%nat && (n <=? 90)%nat then ascii_of_nat (n + 32) else c.

Fixpoint lower (s : string) : string :=
  match s with
  | EmptyString => EmptyString
  | String c s' => String (lower_ascii c) (lower s')
  end.

(** [xs.join(sep)] *)
Definition join (sep : string) (xs : list string) : string :=
  String.concat sep xs.

(** The high surrogate of the character that the four UTF-8 bytes encode,
    in the three-byte generalised form of UTF-8. *)
Definition high_surrogate (b0 b1 b2 b3 : ascii) : string :=
  let cp := ((N_of_ascii b0 mod 8) * 262144 + (N_of_ascii b1 mod 64) * 4096 +
             (N_of_ascii b2 mod 64) * 64 + N_of_ascii b3 mod 64)%N in
  let hi := (55296 + (cp - 65536) / 1024)%N in
  String (ascii_of_N 237)
    (String (ascii_of_N (128 + (hi / 64) mod 64))
       (String (ascii_of_N (128 + hi mod 64)) EmptyString)).

(** [s.substring(0, n)]: the first [n] UTF-16 code units of [s], which is
    given by its UTF-8 bytes.  A character of one, two or three bytes is
    one code unit; a character of four bytes is two, and when only the
    first of the two fits, that high surrogate is what is kept. *)
Fixpoint take_units (n : nat) (s : string) {struct n} : string :=
  match n, s with
  | O, _ => EmptyString
  | S _, EmptyString => EmptyString
  | S n', String b0 rest =>
      let lead := nat_of_ascii b0 in
      if (lead <? 192)%nat then String b0 (take_units n' rest)
      else if (lead <? 224)%nat then
        match rest with
        | String b1 r => String b0 (String b1 (take_units n' r))
        | EmptyString => String b0 EmptyString
        end
      else if (lead <? 240)%nat then
        match rest with
        | String b1 (String b2 r) =>
            String b0 (String b1 (String b2 (take_units n' r)))
        | _ => String b0 rest
        end
      else
        match rest with
        | String b1 (String b2 (String b3 r)) =>
            match n' with
            | O => high_surrogate b0 b1 b2 b3
            | S n'' =>
                String b0 (String b1 (String b2 (String b3 (take_units n'' r))))
            end
        | _ => String b0 rest
        end
  end.

End Str.

(** ** JavaScript values

    What [JSON.parse] can return, plus [undefined].  The code never
    computes with a number: it tests its truthiness and writes it back
    with [JSON.stringify].  A number is therefore kept as the text
    JavaScript prints for it, which identifies it: 0 for either zero,
    29.99, 1e+21, Infinity. *)

Inductive JsValue : Type :=
| JUndefined
| JNull
| JBool (b : bool)
| JNum (printed : string)
| JStr (s : string)
| JArr (items : list JsValue)
| JObj (fields : list (string * JsValue)).

(** [!!v] *)
Definition truthy (v : JsValue) : bool :=
  match v with
  | JUndefined | JNull => false
  | JBool b => b
  | JNum n => negb (String.eqb n "0" || String.eqb n "NaN")
  | JStr s => negb (Str.is_empty s)
  | JArr _ | JObj _ => true
  end.

(** [a === b] where one side is a string: equal only to the same string. *)
Definition strict_eq_str (a : string) (v : JsValue) : bool :=
  match v with
  | JStr b => String.eqb a b
  | _ => false
  end.

(** Own property lookup in an object literal or a parsed object. *)
Fixpoint assoc (k : string) (fs : list (string * JsValue)) : JsValue :=
  match fs with
  | [] => JUndefined
  | (k', v) :: fs' => if String.eqb k k' then v else assoc k fs'
  end.

(** [Object.entries(o)] of a plain object. *)
Definition Object_entries (v : JsValue) : list (string * JsValue) :=
  match v with
  | JObj fs => fs
  | _ => []
  end.

(** ** [JSON.stringify] *)

Module Json.

Definition dquote : ascii := ascii_of_nat 34.

Definition hex_digit (n : nat) : ascii :=
  ascii_of_nat (if (n <? 10)%nat then 48 + n else 87 + n).

(** One character inside a JSON string literal. *)
Definition escape_char (c : ascii) : string :=
  let n := nat_of_ascii c in
  if (n =? 34)%nat then String "\"%char (String dquote EmptyString)
  else if (n =? 92)%nat then "\\"
  else if (n =? 8)%nat then "\b"
  else if (n =? 12)%nat then "\f"
  else if (n =? 10)%nat then "\n"
  else if (n =? 13)%nat then "\r"
  else if (n =? 9)%nat then "\t"
  else if (n <? 32)%nat then
    "\u00" +:+ String (hex_digit (n / 16)) (String (hex_digit (n mod 16)) "")
  else String c "".

(** A surrogate that stands alone is held in three bytes, the first one
    237 and the second one 160 or more; [JSON.stringify] writes it as an
    escape of four hexadecimal digits, the first of them d. *)
Definition is_surrogate (c b1 : ascii) : bool :=
  ((nat_of_ascii c =? 237) && (160 <=? nat_of_ascii b1))%nat.

Definition surrogate_escape (b1 b2 : ascii) : string :=
  let x := (nat_of_ascii b1 mod 64)%nat in
  let y := (nat_of_ascii b2 mod 64)%nat in
  "\ud" +:+
  String (hex_digit (x / 4))
    (String (hex_digit ((x mod 4) * 4 + y / 16))
       (String (hex_digit (y mod 16)) EmptyString)).

Fixpoint escape (s : string) : string :=
  match s with
  | EmptyString => EmptyString
  | String c s' =>
      match s' with
      | String b1 (String b2 r) =>
          if is_surrogate c b1 then surrogate_escape b1 b2 +:+ escape r
          else escape_char c +:+ escape s'
      | _ => escape_char c +:+ escape s'
      end
  end.

Definition quote (s : string) : string :=
  String dquote (escape s +:+ String dquote EmptyString).

(** Text [JSON.stringify] writes as it is: no control character, quote or
    backslash, and no byte 237, the lead byte under which a surrogate
    would be written. *)
Definition verbatim_char (c : ascii) : bool :=
  let n := nat_of_ascii c in
  ((32 <=? n) && negb (n =? 34) && negb (n =? 92) && negb (n =? 237))%nat.

Fixpoint verbatim (s : string) : bool :=
  match s with
  | EmptyString => true
  | String c s' => verbatim_char c && verbatim s'
  end.

(** A number in JSON text: a finite number as JavaScript prints it, the
    others as null. *)
Definition number (printed : string) : string :=
  if String.eqb printed "Infinity" || String.eqb printed "-Infinity" ||
     String.eqb printed "NaN"
  then "null" else printed.

(** [JSON.stringify(v)]; [None] stands for the result [undefined].
    Object members whose value is [undefined] are left out, array
    elements that are [undefined] are written [null]. *)
Fixpoint stringify (v : JsValue) : option string :=
  match v with
  | JUndefined => None
  | JNull => Some "null"
  | JBool b => Some (if b then "true" else "false")
  | JNum n => Some (number n)
  | JStr s => Some (quote s)
  | JArr items =>
      Some ("[" +:+ Str.join ","
              (List.map (fun x => default "null" (stringify x)) items) +:+ "]")
  | JObj fields =>
      Some ("{" +:+ Str.join ","
              (omap (fun kv => match stringify (snd kv) with
                               | Some t => Some (quote (fst kv) +:+ ":" +:+ t)
                               | None => None
                               end) fields) +:+ "}")
  end.

End Json.


(** ** Request headers

    [request.headers] is a Fetch [Headers] object.  As the Fetch standard
    prescribes, the class normalises every value it stores ([append] and
    [set] strip leading and trailing HTTP whitespace: tab, LF, CR, space),
    matches names case-insensitively, and [get] joins the values stored
    under one name with a comma and a space.  A request is given by its
    header lines as they were sent. *)

Module Headers.

Definition is_http_whitespace (c : ascii) : bool :=
  let n := nat_of_ascii c in
  ((n =? 9) || (n =? 10) || (n =? 13) || (n =? 32))%nat.

Fixpoint trim_left (s : string) : string :=
  match s with
  | EmptyString => EmptyString
  | String c s' => if is_http_whitespace c then trim_left s' else s
  end.

Fixpoint trim_right (s : string) : string :=
  match s with
  | EmptyString => EmptyString
  | String c s' =>
      match trim_right s' with
      | EmptyString =>
          if is_http_whitespace c then EmptyString else String c EmptyString
      | t => String c t
      end
  end.

Definition normalize (value : string) : string :=
  trim_right (trim_left value).

(** The header list: lower-cased names, normalised values. *)
Definition t : Type := list (string * string).

Definition entry (line : string * string) : string * string :=
  (Str.lower (fst line), normalize (snd line)).

(** [new Headers(lines)]: one [append] per line. *)
Definition of_lines (lines : list (string * string)) : t :=
  List.map entry lines.

Definition values (h : t) (name : string) : list string :=
  List.map snd
    (List.filter (fun e => String.eqb (fst e) (Str.lower name)) h).

(** [headers.get(name)]; [None] is [null]. *)
Definition get (h : t) (name : string) : option string :=
  match values h name with
  | [] => None
  | vs => Some (Str.join ", " vs)
  end.

End Headers.

(** ** Exceptions, the singleton, and the monad of the code *)

Inductive Exn : Type :=
| Error (message : string)
| TypeError (message : string)
| SyntaxError (message : string)
| HttpError (message : string).

(** [(error as Error).message] *)
Definition message (e : Exn) : string :=
  match e with
  | Error m | TypeError m | SyntaxError m | HttpError m => m
  end.

(** The private fields of [class SecretsManager]; there is one instance. *)
Record SecretsManager : Type := mkSecretsManager {
  secrets : JsValue;          (* AppSecrets | null *)
  isInitialized : bool
}.

(** Calls that leave the module, in the order they happen. *)
Inductive Event : Type :=
| EvGetSecrets                                  (* the helper getSecrets() *)
| EvReadEnv                                     (* loadFromEnv reads process.env *)
| EvFetch (auth owner repo path : string).      (* octokit.repos.getContent *)

Record State : Type := mkState {
  manager : SecretsManager;
  console : list (string * Exn);                (* console.error(label, error) *)
  trace : list Event
}.

Definition initial : State :=
  {| manager := {| secrets := JNull; isInitialized := false |};
     console := [];
     trace := [] |}.

Inductive Result (A : Type) : Type :=
| Ok (a : A)
| Throw (e : Exn).
Arguments Ok {A} a.
Arguments Throw {A} e.

Definition M (A : Type) : Type := State -> Result A * State.

Definition ret {A} (a : A) : M A := fun s => (Ok a, s).

Definition throw {A} (e : Exn) : M A := fun s => (Throw e, s).

Definition bind {A B} (m : M A) (k : A -> M B) : M B :=
  fun s =>
    match m s with
    | (Ok a, s') => k a s'
    | (Throw e, s') => (Throw e, s')
    end.

(** [try { m } catch (error) { h error }] *)
Definition try_catch {A} (m : M A) (h : Exn -> M A) : M A :=
  fun s =>
    match m s with
    | (Ok a, s') => (Ok a, s')
    | (Throw e, s') => h e s'
    end.

Notation "'let*' x ':=' m 'in' k" := (bind m (fun x => k))
  (at level 10, x name, m at level 100, k at level 200).
Notation "m ';;;' k" := (bind m (fun _ => k))
  (at level 100, k at level 200, right associativity).

Definition emit (ev : Event) : M unit :=
  fun s => (Ok tt, {| manager := manager s; console := console s;
                      trace := trace s ++ [ev] |}).

Definition console_error (label : string) (e : Exn) : M unit :=
  fun s => (Ok tt, {| manager := manager s;
                      console := console s ++ [(label, e)];
                      trace := trace s |}).

Definition this : M SecretsManager := fun s => (Ok (manager s), s).

Definition set_secrets (v : JsValue) : M unit :=
  fun s => (Ok tt, {| manager := {| secrets := v;
                                    isInitialized := isInitialized (manager s) |};
                      console := console s; trace := trace s |}).

Definition set_isInitialized (b : bool) : M unit :=
  fun s => (Ok tt, {| manager := {| secrets := secrets (manager s);
                                    isInitialized := b |};
                      console := console s; trace := trace s |}).

(** [v.k]: reading a property of [null] or [undefined] throws. *)
Definition get_prop (v : JsValue) (k : string) : M JsValue :=
  match v with
  | JUndefined | JNull =>
      throw (TypeError ("Cannot read properties of " +:+
                        (if v is JNull then "null" else "undefined") +:+
                        " (reading '" +:+ k +:+ "')"))
  | JObj fs => ret (assoc k fs)
  | _ => ret JUndefined
  end.

(** ** The runtime the code calls into *)

Inductive GetContentResult : Type :=
| Rejected (e : Exn)                  (* the request promise rejects *)
| Resolved (content : option string). (* response.data, with or without content *)

Record Runtime : Type := mkRuntime {
  env : gmap string string;                                 (* process.env *)
  getContent : string -> string -> string -> string -> GetContentResult;
  base64_utf8 : string -> string;   (* Buffer.from(c, 'base64').toString('utf-8') *)
  JSON_parse : string -> Result JsValue;
  now : string                      (* new Date().toISOString() *)
}.

(** ** [src/lib/secrets.ts] *)

Module AppSecrets.

(** [interface AppSecrets] *)
Record t : Type := mk {
  databaseUrl : string;
  apiKey : string;
  jwtSecret : string;
  redisUrl : string;
  stripeSecretKey : string
}.

(** The object literal with the five keys in the order it is written. *)
Definition object (r : t) : JsValue :=
  JObj [ ("databaseUrl", JStr (databaseUrl r));
         ("apiKey", JStr (apiKey r));
         ("jwtSecret", JStr (jwtSecret r));
         ("redisUrl", JStr (redisUrl r));
         ("stripeSecretKey", JStr (stripeSecretKey r)) ].

Definition keys : list string :=
  [ "databaseUrl"; "apiKey"; "jwtSecret"; "redisUrl"; "stripeSecretKey" ].

End AppSecrets.

(** [x || fallback] for [x : string | undefined] *)
Definition or_else (x : option string) (fallback : string) : string :=
  match x with
  | Some (String c s) => String c s
  | _ => fallback
  end.

(** [!x] for [x : string | undefined | null] *)
Definition absent (x : option string) : bool :=
  match x with
  | Some (String _ _) => false
  | _ => true
  end.

Definition process_env (rt : Runtime) (name : string) : option string :=
  env rt !! name.

Module SecretsManager.
Section Methods.

Variable rt : Runtime.

Definition not_initialized : Exn :=
  Error "Secrets not initialized. Call initialize() first.".

Definition github_configuration_missing : Exn :=
  Error ("GitHub configuration missing. Please set GITHUB_TOKEN, " +:+
         "GITHUB_REPO_OWNER, and GITHUB_REPO_NAME").

Definition failed_to_fetch : Exn :=
  Error "Failed to fetch secrets from GitHub".

Definition failed_to_initialize : Exn :=
  Error "Failed to initialize secrets from GitHub".

(** [await octokit.repos.getContent({ owner, repo, path })] with the
    client built from [auth]. *)
Definition octokit_getContent (auth owner repo path : string)
  : M (option string) :=
  emit (EvFetch auth owner repo path) ;;;
  match getContent rt auth owner repo path with
  | Rejected e => throw e
  | Resolved content => ret content
  end.

Definition loadFromGitHub : M unit :=
  try_catch
    (let githubToken := process_env rt "GITHUB_TOKEN" in
     let repoOwner := process_env rt "GITHUB_REPO_OWNER" in
     let repoName := process_env rt "GITHUB_REPO_NAME" in
     let secretsPath :=
       or_else (process_env rt "GITHUB_SECRETS_PATH") "secrets.json" in
     if absent githubToken || absent repoOwner || absent repoName then
       throw github_configuration_missing
     else
       let* data := octokit_getContent (default EmptyString githubToken)
                      (default EmptyString repoOwner)
                      (default EmptyString repoName) secretsPath in
       if absent data then throw failed_to_fetch
       else
         let content := base64_utf8 rt (default EmptyString data) in
         match JSON_parse rt content with
         | Ok v => set_secrets v
         | Throw e => throw e
         end)
    (fun error =>
       console_error "Error loading secrets from GitHub:" error ;;;
       throw failed_to_initialize).

Definition loadFromEnv : M unit :=
  emit EvReadEnv ;;;
  set_secrets
    (AppSecrets.object
       {| AppSecrets.databaseUrl :=
            or_else (process_env rt "DATABASE_URL") EmptyString;
          AppSecrets.apiKey :=
            or_else (process_env rt "API_KEY") EmptyString;
          AppSecrets.jwtSecret :=
            or_else (process_env rt "JWT_SECRET") EmptyString;
          AppSecrets.redisUrl :=
            or_else (process_env rt "REDIS_URL") EmptyString;
          AppSecrets.stripeSecretKey :=
            or_else (process_env rt "STRIPE_SECRET_KEY") EmptyString |}) ;;;
  let* self := this in
  let missingSecrets :=
    List.map fst
      (List.filter (fun entry => negb (truthy (snd entry)))
         (Object_entries (secrets self))) in
  if (0 <? List.length missingSecrets)%nat then
    throw (Error ("Missing required secrets: " +:+
                  Str.join ", " missingSecrets))
  else ret tt.

Definition initialize : M unit :=
  let* self := this in
  if isInitialized self then ret tt
  else
    (if bool_decide (process_env rt "NODE_ENV" = Some "production")
     then loadFromGitHub
     else loadFromEnv) ;;;
    set_isInitialized true.

Definition getSecrets : M JsValue :=
  let* self := this in
  if negb (truthy (secrets self)) then throw not_initialized
  else ret (secrets self).

Definition getSecret (key : string) : M JsValue :=
  let* self := this in
  if negb (truthy (secrets self)) then throw not_initialized
  else get_prop (secrets self) key.

Definition isReady : M bool :=
  let* self := this in
  ret (isInitialized self &&
       negb (if secrets self is JNull then true else false)).

End Methods.
End SecretsManager.

Section Helpers.

Variable rt : Runtime.

(** Helper function to get secrets safely *)
Definition getSecrets : M JsValue :=
  emit EvGetSecrets ;;;
  let* ready := SecretsManager.isReady in
  (if negb ready then SecretsManager.initialize rt else ret tt) ;;;
  SecretsManager.getSecrets.

(** Helper function to get a specific secret safely *)
Definition getSecret (key : string) : M JsValue :=
  let* ready := SecretsManager.isReady in
  (if negb ready then SecretsManager.initialize rt else ret tt) ;;;
  SecretsManager.getSecret key.

End Helpers.

(** ** Requests and responses *)

Module AuthenticatedRequest.

(** [interface AuthenticatedRequest extends NextRequest]: the request
    as it arrived, and the two optional fields the gate attaches. *)
Record t : Type := mk {
  header_lines : list (string * string);
  json : Result JsValue;            (* what [await request.json()] gives *)
  apiKey : option string;
  secrets : option JsValue
}.

Definition headers (request : t) : Headers.t :=
  Headers.of_lines (header_lines request).

End AuthenticatedRequest.

Definition NextRequest : Type := AuthenticatedRequest.t.

Module NextResponse.

Record t : Type := mk {
  status : nat;
  body : JsValue
}.

(** [NextResponse.json(body, { status })] *)
Definition json (body : JsValue) (status : nat) : t :=
  {| status := status; body := body |}.

(** The serialised body that goes on the wire. *)
Definition text (r : t) : option string := Json.stringify (body r).

End NextResponse.

(** ** [src/lib/apiKeyAuth.ts] *)

Record AuthResult : Type := mkAuthResult {
  isValid : bool;
  request : AuthenticatedRequest.t;
  response : option NextResponse.t
}.

Definition error_body (msg : string) : JsValue :=
  JObj [ ("status", JStr "error"); ("message", JStr msg) ].

(** 401, kind MissingCredential *)
Definition api_key_required : NextResponse.t :=
  NextResponse.json
    (error_body ("API key required. Use Authorization: " +:+
                 "Bearer <api-key> or X-API-Key header")) 401.

(** 500, kind ServerMisconfigured *)
Definition api_key_not_configured : NextResponse.t :=
  NextResponse.json (error_body "API key not configured on server") 500.

(** 401, kind InvalidCredential *)
Definition invalid_api_key : NextResponse.t :=
  NextResponse.json (error_body "Invalid API key") 401.

(** 500, kind ConfigurationUnavailable *)
Definition authentication_error : NextResponse.t :=
  NextResponse.json
    (error_body "Internal server error during authentication") 500.

(** [authHeader?.startsWith('Bearer ') ? authHeader.substring(7) : apiKeyHeader] *)
Definition providedApiKey (authHeader apiKeyHeader : option string)
  : option string :=
  match authHeader with
  | Some a =>
      if String.prefix "Bearer " a then Some (Str.drop 7 a) else apiKeyHeader
  | None => apiKeyHeader
  end.

Section ApiKeyAuth.

Variable rt : Runtime.

Definition rejected (req : NextRequest) (r : NextResponse.t) : AuthResult :=
  {| isValid := false; request := req; response := Some r |}.

Definition validateApiKey (req : NextRequest) : M AuthResult :=
  let authHeader :=
    Headers.get (AuthenticatedRequest.headers req) "authorization" in
  let apiKeyHeader :=
    Headers.get (AuthenticatedRequest.headers req) "x-api-key" in
  let provided := providedApiKey authHeader apiKeyHeader in
  if absent provided then ret (rejected req api_key_required)
  else
    let key := default EmptyString provided in
    try_catch
      (let* secrets := getSecrets rt in
       let* configured := get_prop secrets "apiKey" in
       if negb (truthy configured) then
         ret (rejected req api_key_not_configured)
       else if negb (strict_eq_str key configured) then
         ret (rejected req invalid_api_key)
       else
         ret {| isValid := true;
                request :=
                  {| AuthenticatedRequest.header_lines :=
                       AuthenticatedRequest.header_lines req;
                     AuthenticatedRequest.json :=
                       AuthenticatedRequest.json req;
                     AuthenticatedRequest.apiKey := Some key;
                     AuthenticatedRequest.secrets := Some secrets |};
                response := None |})
      (fun error =>
         console_error "Error validating API key:" error ;;;
         ret (rejected req authentication_error)).

(** The wrapper returns [authResult.response!] or what the handler
    returns; [None] stands for an absent response. *)
Definition withApiKeyAuth
    (handler : AuthenticatedRequest.t -> M NextResponse.t)
    (req : NextRequest) : M (option NextResponse.t) :=
  let* authResult := validateApiKey req in
  if negb (isValid authResult) then ret (response authResult)
  else
    let* r := handler (request authResult) in
    ret (Some r).

End ApiKeyAuth.

(** ** [src/app/api/secrets/route.ts] *)

(** [const { k, ... } = v]: taking apart [null] or [undefined] throws,
    the message naming the first property asked for. *)
Definition destructure (v : JsValue) (k : string) : M JsValue :=
  match v with
  | JUndefined | JNull =>
      throw (TypeError ("Cannot destructure property '" +:+ k +:+
                        "' of '(intermediate value)' as it is " +:+
                        (if v is JNull then "null" else "undefined") +:+ "."))
  | JObj fs => ret (assoc k fs)
  | _ => ret JUndefined
  end.

(** A method call [expr.method(...)] on a value that has no such method:
    [expr] is the receiver as the source writes it. *)
Definition no_method (expr method : string) (v : JsValue) : Exn :=
  match v with
  | JUndefined =>
      TypeError ("Cannot read properties of undefined (reading '" +:+
                 method +:+ "')")
  | JNull =>
      TypeError ("Cannot read properties of null (reading '" +:+
                 method +:+ "')")
  | _ => TypeError (expr +:+ "." +:+ method +:+ " is not a function")
  end.

(** [expr.substring(0, n)]: only strings have the method. *)
Definition call_substring (expr : string) (v : JsValue) (n : nat) : M string :=
  match v with
  | JStr s => ret (Str.take_units n s)
  | _ => throw (no_method expr "substring" v)
  end.

(** [expr.includes(needle)] for a string [needle]: strings have the
    method, and so have arrays, which look for an element equal to it. *)
Definition call_includes (expr : string) (v : JsValue) (needle : string)
  : M bool :=
  match v with
  | JStr s => ret (Str.includes needle s)
  | JArr items => ret (List.existsb (strict_eq_str needle) items)
  | _ => throw (no_method expr "includes" v)
  end.

Definition indicator (v : JsValue) : JsValue :=
  JStr (if truthy v then "✅ Configured" else "❌ Missing").

Definition optional (x : option string) : JsValue :=
  match x with
  | Some s => JStr s
  | None => JUndefined
  end.

Section Route.

Variable rt : Runtime.

Definition error_detail (error : Exn) : string :=
  if bool_decide (process_env rt "NODE_ENV" = Some "development")
  then message error
  else "Internal server error".

Definition GET (req : NextRequest) : M NextResponse.t :=
  try_catch
    (let* secrets := getSecrets rt in
     let* databaseUrl := get_prop secrets "databaseUrl" in
     let* apiKey := get_prop secrets "apiKey" in
     let* jwtSecret := get_prop secrets "jwtSecret" in
     let* redisUrl := get_prop secrets "redisUrl" in
     let* stripeSecretKey := get_prop secrets "stripeSecretKey" in
     let secretsInfo :=
       JObj [ ("status", JStr "success");
              ("message", JStr "Secrets are properly configured");
              ("secretsConfigured",
                JObj [ ("databaseUrl", indicator databaseUrl);
                       ("apiKey", indicator apiKey);
                       ("jwtSecret", indicator jwtSecret);
                       ("redisUrl", indicator redisUrl);
                       ("stripeSecretKey", indicator stripeSecretKey) ]);
              ("environment", optional (process_env rt "NODE_ENV"));
              ("timestamp", JStr (now rt)) ] in
     ret (NextResponse.json secretsInfo 200))
    (fun error =>
       console_error "Error in secrets API:" error ;;;
       ret (NextResponse.json
              (JObj [ ("status", JStr "error");
                      ("message", JStr "Failed to access secrets");
                      ("error", JStr (error_detail error)) ]) 500)).

Definition POST (req : NextRequest) : M NextResponse.t :=
  try_catch
    (let* parsed := (fun s => (AuthenticatedRequest.json req, s)) in
     let* action := destructure parsed "action" in
     let* secrets := getSecrets rt in
     if strict_eq_str "authenticate" action then
       let* jwtSecret := get_prop secrets "jwtSecret" in
       let* prefix := call_substring "secrets.jwtSecret" jwtSecret 8 in
       let token := "jwt_token_using_" +:+ prefix +:+ "..." in
       ret (NextResponse.json
              (JObj [ ("status", JStr "success");
                      ("message", JStr "Authentication successful");
                      ("token", JStr token) ]) 200)
     else if strict_eq_str "database" action then
       let* databaseUrl := get_prop secrets "databaseUrl" in
       let* found := call_includes "secrets.databaseUrl" databaseUrl
                       "postgresql" in
       let dbInfo :=
         JObj [ ("status", JStr "success");
                ("message", JStr "Database connection configured");
                ("databaseType",
                  JStr (if found then "PostgreSQL" else "Unknown")) ] in
       ret (NextResponse.json dbInfo 200)
     else
       ret (NextResponse.json (error_body "Invalid action") 400))
    (fun error =>
       console_error "Error in secrets POST API:" error ;;;
       ret (NextResponse.json
              (JObj [ ("status", JStr "error");
                      ("message", JStr "Failed to process request");
                      ("error", JStr (error_detail error)) ]) 500)).

End Route.

(** ** Notions the properties are stated with *)

(** Updates of the parts of the state. *)
Definition with_trace (s : State) (evs : list Event) : State :=
  {| manager := manager s; console := console s; trace := trace s ++ evs |}.

Definition with_console (s : State) (logged : list (string * Exn)) : State :=
  {| manager := manager s; console := console s ++ logged; trace := trace s |}.

(** The underlying loads in a trace: environment reads and remote fetches. *)
Definition is_load (ev : Event) : bool :=
  match ev with
  | EvReadEnv | EvFetch _ _ _ _ => true
  | EvGetSecrets => false
  end.

Definition loads (tr : list Event) : nat :=
  List.length (List.filter is_load tr).

(** The record [loadFromEnv] reads from the environment. *)
Definition env_record (rt : Runtime) : AppSecrets.t :=
  {| AppSecrets.databaseUrl := or_else (process_env rt "DATABASE_URL") EmptyString;
     AppSecrets.apiKey := or_else (process_env rt "API_KEY") EmptyString;
     AppSecrets.jwtSecret := or_else (process_env rt "JWT_SECRET") EmptyString;
     AppSecrets.redisUrl := or_else (process_env rt "REDIS_URL") EmptyString;
     AppSecrets.stripeSecretKey :=
       or_else (process_env rt "STRIPE_SECRET_KEY") EmptyString |}.

(** Each field with the environment variable it is read from. *)
Definition field_variables : list (string * string) :=
  [ ("databaseUrl", "DATABASE_URL"); ("apiKey", "API_KEY");
    ("jwtSecret", "JWT_SECRET"); ("redisUrl", "REDIS_URL");
    ("stripeSecretKey", "STRIPE_SECRET_KEY") ].

(** The fields whose variable is unset or empty, in field order. *)
Definition missing_fields (rt : Runtime) : list string :=
  List.map fst
    (List.filter (fun fv => absent (process_env rt (snd fv))) field_variables).

Definition missing_message (names : list string) : string :=
  "Missing required secrets: " +:+ Str.join ", " names.

Definition non_empty_string (v : JsValue) : bool :=
  match v with
  | JStr (String _ _) => true
  | _ => false
  end.

(** Every field of the stored value is a non-empty string. *)
Definition all_fields_non_empty (v : JsValue) : bool :=
  match v with
  | JObj fs =>
      List.forallb (fun k => non_empty_string (assoc k fs)) AppSecrets.keys
  | _ => false
  end.

Definition field_values (r : AppSecrets.t) : list string :=
  [ AppSecrets.databaseUrl r; AppSecrets.apiKey r; AppSecrets.jwtSecret r;
    AppSecrets.redisUrl r; AppSecrets.stripeSecretKey r ].

Definition non_empty_fields (r : AppSecrets.t) : bool :=
  List.forallb (fun v => negb (Str.is_empty v)) (field_values r).

(** What [loadFromEnv] does to the state: the record is stored before it
    is validated. *)
Definition loaded_from_env (rt : Runtime) (s : State) : State :=
  {| manager := {| secrets := AppSecrets.object (env_record rt);
                   isInitialized := isInitialized (manager s) |};
     console := console s;
     trace := trace s ++ [EvReadEnv] |}.

(** The one fetch [loadFromGitHub] issues once its parameters are set. *)
Definition fetch_event (rt : Runtime) : Event :=
  EvFetch (default EmptyString (process_env rt "GITHUB_TOKEN"))
          (default EmptyString (process_env rt "GITHUB_REPO_OWNER"))
          (default EmptyString (process_env rt "GITHUB_REPO_NAME"))
          (or_else (process_env rt "GITHUB_SECRETS_PATH") "secrets.json").

(** Some required parameter of remote mode is unset or empty. *)
Definition parameter_missing (rt : Runtime) : bool :=
  absent (process_env rt "GITHUB_TOKEN") ||
  absent (process_env rt "GITHUB_REPO_OWNER") ||
  absent (process_env rt "GITHUB_REPO_NAME").

Definition github_label : string := "Error loading secrets from GitHub:".

(** The three parameters remote mode requires. *)
Definition required_parameters : list string :=
  [ "GITHUB_TOKEN"; "GITHUB_REPO_OWNER"; "GITHUB_REPO_NAME" ].

(** A message names exactly the required parameters that are missing. *)
Definition names_exactly_missing (rt : Runtime) (msg : string) : Prop :=
  forall p, In p required_parameters ->
    (Str.includes p msg = true <-> absent (process_env rt p) = true).

(** The credential-header formats as an ordered list of extraction
    strategies, tried in sequence, the first non-empty result winning. *)
Module Extraction.

Definition strategy : Type := Headers.t -> option string.

Definition bearer : strategy := fun h =>
  match Headers.get h "authorization" with
  | Some a => if String.prefix "Bearer " a then Some (Str.drop 7 a) else None
  | None => None
  end.

Definition x_api_key : strategy := fun h => Headers.get h "x-api-key".

Definition strategies : list strategy := [ bearer; x_api_key ].

Fixpoint first_non_empty (fs : list strategy) (h : Headers.t)
  : option string :=
  match fs with
  | [] => None
  | f :: fs' => if absent (f h) then first_non_empty fs' h else f h
  end.

End Extraction.

(** The body of the status response when all five fields are set. *)
Definition all_configured (environment : option string) (timestamp : string)
  : JsValue :=
  JObj [ ("status", JStr "success");
         ("message", JStr "Secrets are properly configured");
         ("secretsConfigured",
           JObj [ ("databaseUrl", JStr "✅ Configured");
                  ("apiKey", JStr "✅ Configured");
                  ("jwtSecret", JStr "✅ Configured");
                  ("redisUrl", JStr "✅ Configured");
                  ("stripeSecretKey", JStr "✅ Configured") ]);
         ("environment", optional environment);
         ("timestamp", JStr timestamp) ].

(** The fixed text of that response: its serialisation with the
    environment name and the timestamp left empty. *)
Definition fixed_response_text : string :=
  default EmptyString
    (Json.stringify (all_configured (Some EmptyString) EmptyString)).

(** The token the authenticate action answers with. *)
Definition token_of (jwtSecret : string) : string :=
  "jwt_token_using_" +:+ Str.take_units 8 jwtSecret +:+ "...".

(** ** Example runtimes *)

Module Example.

(** The two library functions at the inputs the examples feed them:
    the base64 text e30= decodes to an empty pair of braces, which parses
    to the empty object. *)
Definition decode (c : string) : string :=
  if String.eqb c "e30=" then "{}" else EmptyString.

Definition parse (text : string) : Result JsValue :=
  if String.eqb text "{}" then Ok (JObj [])
  else Throw (SyntaxError "Unexpected end of JSON input").

Definition not_found : string -> string -> string -> string -> GetContentResult :=
  fun _ _ _ _ => Rejected (HttpError "Not Found").

Definition runtime (vars : list (string * string))
    (remote : string -> string -> string -> string -> GetContentResult)
  : Runtime :=
  {| env := list_to_map vars;
     getContent := remote;
     base64_utf8 := decode;
     JSON_parse := parse;
     now := "2026-11-02T07:08:00.000Z" |}.

(** Local mode, nothing set. *)
Definition local_unset : Runtime := runtime [] not_found.

(** Local mode, all five fields set. *)
Definition local_vars : list (string * string) :=
  [ ("NODE_ENV", "development");
    ("DATABASE_URL", "postgresql://localhost/app"); ("API_KEY", "K1");
    ("JWT_SECRET", "0123456789abcdef"); ("REDIS_URL", "redis://localhost");
    ("STRIPE_SECRET_KEY", "sk_test_1") ].

Definition local_full : Runtime := runtime local_vars not_found.

(** Local mode, two of the five fields set. *)
Definition local_partial : Runtime :=
  runtime [ ("API_KEY", "K1"); ("JWT_SECRET", "0123456789abcdef") ] not_found.

(** Local mode, the api key happens to be the current year. *)
Definition local_year : Runtime :=
  runtime [ ("NODE_ENV", "development");
            ("DATABASE_URL", "postgresql://localhost/app"); ("API_KEY", "2026");
            ("JWT_SECRET", "0123456789abcdef"); ("REDIS_URL", "redis://localhost");
            ("STRIPE_SECRET_KEY", "sk_test_1") ] not_found.

(** Remote mode, the three parameters set, and a secrets file that
    holds the empty object. *)
Definition empty_file : string -> string -> string -> string -> GetContentResult :=
  fun _ _ _ path =>
    if String.eqb path "secrets.json" then Resolved (Some "e30=")
    else Rejected (HttpError "Not Found").

Definition remote_empty_object : Runtime :=
  runtime [ ("NODE_ENV", "production"); ("GITHUB_TOKEN", "ghp_token");
            ("GITHUB_REPO_OWNER", "owner"); ("GITHUB_REPO_NAME", "repo") ]
          empty_file.

(** Remote mode with the access token unset. *)
Definition remote_no_token : Runtime :=
  runtime [ ("NODE_ENV", "production");
            ("GITHUB_REPO_OWNER", "owner"); ("GITHUB_REPO_NAME", "repo") ]
          empty_file.

Definition request (lines : list (string * string)) (body : Result JsValue)
  : NextRequest :=
  {| AuthenticatedRequest.header_lines := lines;
     AuthenticatedRequest.json := body;
     AuthenticatedRequest.apiKey := None;
     AuthenticatedRequest.secrets := None |}.

Definition no_body : Result JsValue :=
  Throw (SyntaxError "Unexpected end of JSON input").

(** A store that is ready and holds the record [r]. *)
Definition ready (r : AppSecrets.t) : State :=
  {| manager := {| secrets := AppSecrets.object r; isInitialized := true |};
     console := [];
     trace := [] |}.

Definition record : AppSecrets.t :=
  {| AppSecrets.databaseUrl := "postgresql://localhost/app";
     AppSecrets.apiKey := "K1";
     AppSecrets.jwtSecret := "0123456789abcdef";
     AppSecrets.redisUrl := "redis://localhost";
     AppSecrets.stripeSecretKey := "sk_test_1" |}.

End Example.

(** ** The callers of the store and of the gate *)

(** [console.log(line)]: a line on standard output, which the state does
    not record (it records [console.error] only). *)
Definition console_log (line : string) : M unit := ret tt.

(** [await request.json()] *)
Definition request_json (req : NextRequest) : M JsValue :=
  fun s => (AuthenticatedRequest.json req, s).

(** [src/app/api/init/route.ts] *)
Module InitRoute.
Section Handlers.

Variable rt : Runtime.

Definition POST : M NextResponse.t :=
  try_catch
    (console_log "🔧 Initializing secrets on application startup..." ;;;
     let* ready := SecretsManager.isReady in
     (if negb ready then
        (SecretsManager.initialize rt ;;;
         console_log "✅ Secrets initialized successfully on startup")
      else console_log "⚡ Secrets already initialized, serving from cache") ;;;
     let* secretsReady := SecretsManager.isReady in
     ret (NextResponse.json
            (JObj [ ("status", JStr "success");
                    ("message", JStr "Application initialized successfully");
                    ("secretsReady", JBool secretsReady);
                    ("timestamp", JStr (now rt)) ]) 200))
    (fun error =>
       console_error "❌ Failed to initialize application:" error ;;;
       ret (NextResponse.json
              (JObj [ ("status", JStr "error");
                      ("message", JStr "Failed to initialize application");
                      ("error", JStr (error_detail rt error));
                      ("timestamp", JStr (now rt)) ]) 500)).

(** Also allow GET requests for health checks *)
Definition GET : M NextResponse.t :=
  try_catch
    (let* isReady := SecretsManager.isReady in
     ret (NextResponse.json
            (JObj [ ("status", JStr "success");
                    ("message", JStr "Application health check");
                    ("secretsReady", JBool isReady);
                    ("timestamp", JStr (now rt)) ]) 200))
    (fun error =>
       console_error "❌ Health check failed:" error ;;;
       ret (NextResponse.json
              (JObj [ ("status", JStr "error");
                      ("message", JStr "Health check failed");
                      ("error", JStr (error_detail rt error));
                      ("timestamp", JStr (now rt)) ]) 500)).

End Handlers.
End InitRoute.

(** [middleware.ts], in its two versions *)
Module Middleware.

(** What the middleware answers: [NextResponse.next()]. *)
Inductive Answer : Type := NextResponse_next.

Section Versions.

Variable rt : Runtime.

Definition middleware : M Answer :=
  try_catch
    (let* ready := SecretsManager.isReady in
     if negb ready then
       (SecretsManager.initialize rt ;;;
        console_log "✅ Secrets initialized successfully")
     else ret tt)
    (fun error => console_error "❌ Failed to initialize secrets:" error) ;;;
  ret NextResponse_next.

Definition middleware_fallback : M Answer :=
  try_catch
    (let* ready := SecretsManager.isReady in
     if negb ready then
       (console_log "🔄 Initializing secrets in middleware (fallback)..." ;;;
        SecretsManager.initialize rt ;;;
        console_log "✅ Secrets initialized successfully in middleware")
     else ret tt)
    (fun error =>
       console_error "❌ Failed to initialize secrets in middleware:" error) ;;;
  ret NextResponse_next.

End Versions.
End Middleware.

(** [src/app/api/secure/route.ts] *)
Module SecureRoute.

(** [request.secrets!] *)
Definition request_secrets (req : AuthenticatedRequest.t) : JsValue :=
  match AuthenticatedRequest.secrets req with
  | Some v => v
  | None => JUndefined
  end.

(** [data?.k || fallback] *)
Definition optional_or (data : JsValue) (k : string) (fallback : JsValue)
  : JsValue :=
  let v := match data with
           | JObj fs => assoc k fs
           | _ => JUndefined
           end in
  if truthy v then v else fallback.

(** [v ? yes : no] as a string field *)
Definition choose (v : JsValue) (yes no : string) : JsValue :=
  JStr (if truthy v then yes else no).

Definition invalid_action : NextResponse.t :=
  NextResponse.json
    (error_body ("Invalid action. Supported actions: getUserData, " +:+
                 "processPayment, generateToken, cacheOperation")) 400.

Section Handlers.

Variable rt : Runtime.

(** The text [Math.random().toString(36)] gives in the call at hand. *)
Variable random36 : string.

Definition handleSecureRequest (req : AuthenticatedRequest.t)
  : M NextResponse.t :=
  try_catch
    (let* parsed := request_json req in
     let* action := destructure parsed "action" in
     let* data := get_prop parsed "data" in
     let secrets := request_secrets req in
     if strict_eq_str "getUserData" action then
       let* databaseUrl := get_prop secrets "databaseUrl" in
       let* apiKey := get_prop secrets "apiKey" in
       ret (NextResponse.json
              (JObj [ ("status", JStr "success");
                      ("message", JStr "User data retrieved successfully");
                      ("data",
                        JObj [ ("userId", JStr "user_123");
                               ("email", JStr "user@example.com");
                               ("permissions", JArr [ JStr "read"; JStr "write" ]);
                               ("serviceConfigured",
                                 choose databaseUrl "Database connected"
                                   "Database not configured");
                               ("apiConfigured",
                                 choose apiKey "API configured"
                                   "API not configured") ]);
                      ("timestamp", JStr (now rt)) ]) 200)
     else if strict_eq_str "processPayment" action then
       let* stripeSecretKey := get_prop secrets "stripeSecretKey" in
       ret (NextResponse.json
              (JObj [ ("status", JStr "success");
                      ("message", JStr "Payment processed successfully");
                      ("data",
                        JObj [ ("transactionId",
                                 JStr ("txn_" +:+ String.substring 2 9 random36));
                               ("amount", optional_or data "amount" (JNum "0"));
                               ("currency", JStr "USD");
                               ("paymentProvider",
                                 choose stripeSecretKey "Stripe" "Not configured") ]);
                      ("timestamp", JStr (now rt)) ]) 200)
     else if strict_eq_str "generateToken" action then
       let* jwtSecret := get_prop secrets "jwtSecret" in
       ret (NextResponse.json
              (JObj [ ("status", JStr "success");
                      ("message", JStr "Token generated successfully");
                      ("data",
                        JObj [ ("token",
                                 JStr ("jwt_" +:+ String.substring 2 15 random36));
                               ("expiresIn", JStr "1h");
                               ("tokenType",
                                 choose jwtSecret "JWT" "Not configured") ]);
                      ("timestamp", JStr (now rt)) ]) 200)
     else if strict_eq_str "cacheOperation" action then
       let* redisUrl := get_prop secrets "redisUrl" in
       ret (NextResponse.json
              (JObj [ ("status", JStr "success");
                      ("message", JStr "Cache operation completed");
                      ("data",
                        JObj [ ("operation",
                                 optional_or data "operation" (JStr "get"));
                               ("key", optional_or data "key" (JStr "default"));
                               ("cacheProvider",
                                 choose redisUrl "Redis" "Not configured") ]);
                      ("timestamp", JStr (now rt)) ]) 200)
     else ret invalid_action)
    (fun error =>
       console_error "Error in secure API:" error ;;;
       ret (NextResponse.json
              (JObj [ ("status", JStr "error");
                      ("message", JStr "Failed to process request");
                      ("error", JStr (error_detail rt error)) ]) 500)).

(** Export the handler wrapped with API key authentication *)
Definition POST : NextRequest -> M (option NextResponse.t) :=
  withApiKeyAuth rt handleSecureRequest.

(** GET method for health check (also requires API key) *)
Definition handleHealthCheck (req : AuthenticatedRequest.t)
  : M NextResponse.t :=
  let secrets := request_secrets req in
  let* databaseUrl := get_prop secrets "databaseUrl" in
  let* apiKey := get_prop secrets "apiKey" in
  let* jwtSecret := get_prop secrets "jwtSecret" in
  let* redisUrl := get_prop secrets "redisUrl" in
  let* stripeSecretKey := get_prop secrets "stripeSecretKey" in
  ret (NextResponse.json
         (JObj [ ("status", JStr "success");
                 ("message", JStr "Secure API is healthy");
                 ("data",
                   JObj [ ("authenticated", JBool true);
                          ("apiKeyValid", JBool true);
                          ("services",
                            JObj [ ("database",
                                     choose databaseUrl "configured" "not configured");
                                   ("api",
                                     choose apiKey "configured" "not configured");
                                   ("jwt",
                                     choose jwtSecret "configured" "not configured");
                                   ("redis",
                                     choose redisUrl "configured" "not configured");
                                   ("stripe",
                                     choose stripeSecretKey "configured"
                                       "not configured") ]);
                          ("timestamp", JStr (now rt)) ]) ]) 200).

Definition GET : NextRequest -> M (option NextResponse.t) :=
  withApiKeyAuth rt handleHealthCheck.

End Handlers.
End SecureRoute.

(** ** Further example runtimes *)

Module Scenario.

(** Remote mode with a secrets file that holds the JSON text null. *)
Definition decode (c : string) : string :=
  if String.eqb c "bnVsbA==" then "null" else EmptyString.

Definition parse (text : string) : Result JsValue :=
  if String.eqb text "null" then Ok JNull
  else Throw (SyntaxError "Unexpected end of JSON input").

Definition null_file : string -> string -> string -> string -> GetContentResult :=
  fun _ _ _ path =>
    if String.eqb path "secrets.json" then Resolved (Some "bnVsbA==")
    else Rejected (HttpError "Not Found").

Definition remote_null : Runtime :=
  {| env := list_to_map
              [ ("NODE_ENV", "production"); ("GITHUB_TOKEN", "ghp_token");
                ("GITHUB_REPO_OWNER", "owner"); ("GITHUB_REPO_NAME", "repo") ];
     getContent := null_file;
     base64_utf8 := decode;
     JSON_parse := parse;
     now := "2026-11-02T07:08:00.000Z" |}.

(** A ready store whose record came from a file holding the empty object. *)
Definition unvalidated : State :=
  {| manager := {| secrets := JObj []; isInitialized := true |};
     console := [];
     trace := [] |}.

Definition bearer (key : string) (body : Result JsValue) : NextRequest :=
  Example.request [ ("Authorization", "Bearer " +:+ key) ] body.

Definition action (name : string) : Result JsValue :=
  Ok (JObj [ ("action", JStr name) ]).

(** Remote mode with a secrets file that holds the JSON text 0. *)
Definition decode_zero (c : string) : string :=
  if String.eqb c "MA==" then "0" else EmptyString.

Definition parse_zero (text : string) : Result JsValue :=
  if String.eqb text "0" then Ok (JNum "0")
  else Throw (SyntaxError "Unexpected end of JSON input").

Definition zero_file : string -> string -> string -> string -> GetContentResult :=
  fun _ _ _ path =>
    if String.eqb path "secrets.json" then Resolved (Some "MA==")
    else Rejected (HttpError "Not Found").

Definition remote_zero : Runtime :=
  {| env := list_to_map
              [ ("NODE_ENV", "production"); ("GITHUB_TOKEN", "ghp_token");
                ("GITHUB_REPO_OWNER", "owner"); ("GITHUB_REPO_NAME", "repo") ];
     getContent := zero_file;
     base64_utf8 := decode_zero;
     JSON_parse := parse_zero;
     now := "2026-11-02T07:08:00.000Z" |}.

End Scenario.

(** ** Response bodies the further properties are stated with *)

(** The body of the status response for a stored object with fields [fs]. *)
Definition status_body (rt : Runtime) (fs : list (string * JsValue)) : JsValue :=
  JObj [ ("status", JStr "success");
         ("message", JStr "Secrets are properly configured");
         ("secretsConfigured",
           JObj [ ("databaseUrl", indicator (assoc "databaseUrl" fs));
                  ("apiKey", indicator (assoc "apiKey" fs));
                  ("jwtSecret", indicator (assoc "jwtSecret" fs));
                  ("redisUrl", indicator (assoc "redisUrl" fs));
                  ("stripeSecretKey", indicator (assoc "stripeSecretKey" fs)) ]);
         ("environment", optional (process_env rt "NODE_ENV"));
         ("timestamp", JStr (now rt)) ].

(** The body of a 500 response of a route, with its fixed message. *)
Definition failure_body (msg detail : string) : JsValue :=
  JObj [ ("status", JStr "error");
         ("message", JStr msg);
         ("error", JStr detail) ].

(** Two stored objects agree on which of the five fields are truthy. *)
Definition same_truthiness (fs fs' : list (string * JsValue)) : Prop :=
  forall k, In k AppSecrets.keys ->
    truthy (assoc k fs) = truthy (assoc k fs').

(** The body of the two init-route success responses. *)
Definition init_body (rt : Runtime) (msg : string) (ready : bool) : JsValue :=
  JObj [ ("status", JStr "success");
         ("message", JStr msg);
         ("secretsReady", JBool ready);
         ("timestamp", JStr (now rt)) ].

(** [this.secrets !== null] *)
Definition not_null (v : JsValue) : bool :=
  match v with
  | JNull => false
  | _ => true
  end.

(** A computation leaves the manager [m0] as it is. *)
Definition stable (m0 : SecretsManager) {A : Type} (m : M A) : Prop :=
  forall s, manager s = m0 -> manager (snd (m s)) = m0.

(** The body of the secure health response for a stored object. *)
Definition health_body (rt : Runtime) (fs : list (string * JsValue)) : JsValue :=
  let field k := SecureRoute.choose (assoc k fs) "configured" "not configured" in
  JObj [ ("status", JStr "success");
         ("message", JStr "Secure API is healthy");
         ("data",
           JObj [ ("authenticated", JBool true);
                  ("apiKeyValid", JBool true);
                  ("services",
                    JObj [ ("database", field "databaseUrl");
                           ("api", field "apiKey");
                           ("jwt", field "jwtSecret");
                           ("redis", field "redisUrl");
                           ("stripe", field "stripeSecretKey") ]);
                  ("timestamp", JStr (now rt)) ]) ].

(** ** The text of the status response *)

(** The serialised body of the status response when all five fields are
    set: it is made from the environment name and the timestamp alone. *)
Definition status_text (environment : option string) (timestamp : string)
  : string :=
  default EmptyString (Json.stringify (all_configured environment timestamp)).

(** The text holds no double quote. *)
Fixpoint no_dquote (v : string) : bool :=
  match v with
  | EmptyString => true
  | String c v' => negb (Ascii.eqb c Json.dquote) && no_dquote v'
  end.

(** The first three members of the all-configured body, as serialised. *)
Definition configured_members : string :=
  Str.join ","
    [ Json.quote "status" +:+ ":" +:+ Json.quote "success";
      Json.quote "message" +:+ ":" +:+
        Json.quote "Secrets are properly configured";
      Json.quote "secretsConfigured" +:+ ":" +:+
        default EmptyString
          (Json.stringify
             (JObj [ ("databaseUrl", JStr "✅ Configured");
                     ("apiKey", JStr "✅ Configured");
                     ("jwtSecret", JStr "✅ Configured");
                     ("redisUrl", JStr "✅ Configured");
                     ("stripeSecretKey", JStr "✅ Configured") ])) ].

(** The fixed stretches of the serialised body, cut at the quotes that
    open and close the environment name and the timestamp. *)
Definition opening : string := "{" +:+ configured_members +:+ ",".

Definition before_environment : string :=
  opening +:+ Json.quote "environment" +:+ ":".

Definition before_timestamp : string :=
  "," +:+ Json.quote "timestamp" +:+ ":".

(** The same when the environment name is undefined and left out. *)
Definition before_lone_timestamp : string :=
  opening +:+ Json.quote "timestamp" +:+ ":".

(** * Properties *)

(** ** Strings *)

Lemma prefix_refl_app (p b : string) : String.prefix p (p +:+ b) = true.
Proof.
  induction p as [|c p IH]; simpl.
  - destruct b; reflexivity.
  - destruct (ascii_dec c c); [exact IH | congruence].
Qed.

Lemma prefix_app_r (p a b : string) :
  String.prefix p a = true -> String.prefix p (a +:+ b) = true.
Proof.
  revert a; induction p as [|c p IH]; intros a H; simpl in *.
  - destruct (a +:+ b); reflexivity.
  - destruct a as [|c' a]; simpl in H |- *; [discriminate|].
    destruct (ascii_dec c c'); [now apply IH | discriminate].
Qed.

Lemma includes_prefix (p h : string) :
  String.prefix p h = true -> Str.includes p h = true.
Proof. intros H. destruct h; cbn [Str.includes]; rewrite H; reflexivity. Qed.

Lemma includes_app_l (p a b : string) :
  Str.includes p b = true -> Str.includes p (a +:+ b) = true.
Proof.
  intros H. induction a as [|c a IH]; simpl; [exact H|].
  rewrite IH. apply orb_true_r.
Qed.

Lemma includes_app_r (p a b : string) :
  Str.includes p a = true -> Str.includes p (a +:+ b) = true.
Proof.
  induction a as [|c a IH]; cbn [Str.includes String.append]; intros H.
  - rewrite orb_false_r in H. apply includes_prefix.
    now apply (prefix_app_r p EmptyString b).
  - apply orb_true_iff in H as [H|H].
    + apply (prefix_app_r _ _ b) in H.
      change (String c a +:+ b) with (String c (a +:+ b)) in H.
      change (String c a +:+ b) with (String c (a +:+ b)).
      cbn [Str.includes]. rewrite H. reflexivity.
    + change (String c a +:+ b) with (String c (a +:+ b)).
      cbn [Str.includes]. rewrite (IH H). apply orb_true_r.
Qed.

Lemma append_empty_r (p : string) : p +:+ EmptyString = p.
Proof.
  induction p as [|c p IH]; [reflexivity|].
  change (String c (p +:+ EmptyString) = String c p). now rewrite IH.
Qed.

Lemma includes_refl (p : string) : Str.includes p p = true.
Proof.
  apply includes_prefix. generalize (prefix_refl_app p EmptyString).
  now rewrite append_empty_r.
Qed.

Lemma append_assoc (a b c : string) : (a +:+ b) +:+ c = a +:+ (b +:+ c).
Proof.
  induction a as [|x a IH]; [reflexivity|].
  change (String x ((a +:+ b) +:+ c) = String x (a +:+ b +:+ c)).
  now rewrite IH.
Qed.

(** A text without a double quote that starts a text does so before the
    first double quote of it. *)
Lemma prefix_split (v a b : string) :
  no_dquote v = true ->
  String.prefix v (a +:+ String Json.dquote b) = String.prefix v a.
Proof.
  revert a. induction v as [|c v IH]; intros a Hv.
  - destruct a; reflexivity.
  - cbn [no_dquote] in Hv. apply andb_true_iff in Hv as [Hc Hv].
    destruct a as [|c' a].
    + change (EmptyString +:+ String Json.dquote b) with (String Json.dquote b).
      cbn [String.prefix]. destruct (ascii_dec c Json.dquote) as [->|]; [|reflexivity].
      rewrite Ascii.eqb_refl in Hc. discriminate.
    + change (String c' a +:+ String Json.dquote b)
        with (String c' (a +:+ String Json.dquote b)).
      cbn [String.prefix]. destruct (ascii_dec c c'); [now apply IH|reflexivity].
Qed.

(** Such a text occurs on one side of a double quote or on the other. *)
Lemma includes_split (v a b : string) :
  no_dquote v = true ->
  Str.includes v (a +:+ String Json.dquote b) =
    Str.includes v a || Str.includes v b.
Proof.
  intros Hv. induction a as [|c a IH].
  - change (EmptyString +:+ String Json.dquote b) with (String Json.dquote b).
    cbn [Str.includes].
    rewrite (prefix_split v EmptyString b Hv : String.prefix v (String Json.dquote b) = _).
    now rewrite orb_false_r.
  - change (String c a +:+ String Json.dquote b)
      with (String c (a +:+ String Json.dquote b)).
    cbn [Str.includes].
    rewrite (prefix_split v (String c a) b Hv : String.prefix v (String c (a +:+ String Json.dquote b)) = _).
    rewrite IH, !orb_assoc. reflexivity.
Qed.

Lemma includes_join (sep x : string) (xs : list string) :
  In x xs -> Str.includes x (Str.join sep xs) = true.
Proof.
  unfold Str.join. induction xs as [|y ys IH]; [intros []|].
  intros [->|Hin].
  - destruct ys; simpl; [apply includes_refl|].
    apply includes_app_r, includes_refl.
  - destruct ys as [|z zs]; [destruct Hin|].
    change (String.concat sep (y :: z :: zs))
      with (y +:+ sep +:+ String.concat sep (z :: zs)).
    apply includes_app_l, includes_app_l, IH, Hin.
Qed.

(** ** Header values *)

Lemma trim_right_last (s : string) (c : ascii) :
  Str.last (Headers.trim_right s) = Some c ->
  Headers.is_http_whitespace c = false.
Proof.
  induction s as [|a s IH]; cbn [Headers.trim_right]; [discriminate|].
  destruct (Headers.trim_right s) as [|b t] eqn:E.
  - destruct (Headers.is_http_whitespace a) eqn:Ha; cbn; [discriminate|].
    intros [= <-]. exact Ha.
  - intros H. apply IH. exact H.
Qed.

Lemma normalize_last (value : string) (c : ascii) :
  Str.last (Headers.normalize value) = Some c ->
  Headers.is_http_whitespace c = false.
Proof. apply trim_right_last. Qed.

Lemma values_normalized (lines : list (string * string)) (name : string) :
  Forall (fun v => exists raw, v = Headers.normalize raw)
    (Headers.values (Headers.of_lines lines) name).
Proof.
  unfold Headers.values, Headers.of_lines.
  induction lines as [|[n v] lines IH]; cbn [List.map List.filter]; [constructor|].
  destruct (String.eqb _ _); cbn [List.map]; [constructor|]; eauto.
Qed.

(** A stored value is never the bare scheme followed by a space, and
    neither is a comma-joined list of stored values. *)
Lemma get_not_bare_bearer (lines : list (string * string)) (name : string) :
  Headers.get (Headers.of_lines lines) name <> Some "Bearer ".
Proof.
  unfold Headers.get.
  pose proof (values_normalized lines name) as Hn.
  destruct (Headers.values (Headers.of_lines lines) name) as [|v [|w vs]];
    [discriminate| |].
  - inversion Hn as [|? ? [raw ->] _]; subst.
    intros [= H].
    pose proof (normalize_last raw " "%char) as Hl.
    rewrite H in Hl. specialize (Hl eq_refl). discriminate.
  - change (Some (Str.join ", " (v :: w :: vs)) <> Some "Bearer ").
    remember (Str.join ", " (v :: w :: vs)) as j eqn:Ej.
    assert (Hc : Str.includes "," j = true).
    { subst j. unfold Str.join.
      change (String.concat ", " (v :: w :: vs))
        with (v +:+ ", " +:+ String.concat ", " (w :: vs)).
      apply includes_app_l, includes_prefix.
      apply (prefix_refl_app "," (String " " (String.concat ", " (w :: vs)))). }
    intros [= ->]. discriminate.
Qed.

Lemma bearer_token_non_empty (a : string) :
  String.prefix "Bearer " a = true -> a <> "Bearer " -> Str.drop 7 a <> EmptyString.
Proof.
  intros H Hne.
  do 7 (destruct a as [|? a]; cbn in H; [discriminate|];
        match type of H with
        | (match ?d with left _ => _ | right _ => _ end) = true =>
            destruct d; [subst|discriminate]
        | _ => idtac
        end).
  destruct a; [congruence|]. cbn. discriminate.
Qed.

(** ** The loaders *)

Lemma truthy_or_else (x : option string) :
  truthy (JStr (or_else x EmptyString)) = negb (absent x).
Proof. destruct x as [[|c s]|]; reflexivity. Qed.

Lemma non_empty_or_else (x : option string) :
  non_empty_string (JStr (or_else x EmptyString)) = negb (absent x).
Proof. destruct x as [[|c s]|]; reflexivity. Qed.

(** The names [loadFromEnv] collects are the fields whose variable is
    unset or empty. *)
Lemma missingSecrets_spec (rt : Runtime) :
  List.map fst
    (List.filter (fun entry => negb (truthy (snd entry)))
       (Object_entries (AppSecrets.object (env_record rt))))
  = missing_fields rt.
Proof.
  unfold missing_fields, field_variables, env_record, AppSecrets.object.
  cbn [Object_entries List.filter List.map fst snd
       AppSecrets.databaseUrl AppSecrets.apiKey AppSecrets.jwtSecret
       AppSecrets.redisUrl AppSecrets.stripeSecretKey].
  rewrite !truthy_or_else, !negb_involutive.
  destruct (absent (process_env rt "DATABASE_URL")),
           (absent (process_env rt "API_KEY")),
           (absent (process_env rt "JWT_SECRET")),
           (absent (process_env rt "REDIS_URL")),
           (absent (process_env rt "STRIPE_SECRET_KEY")); reflexivity.
Qed.

Lemma loadFromEnv_run (rt : Runtime) (s : State) :
  SecretsManager.loadFromEnv rt s =
    (match missing_fields rt with
     | [] => Ok tt
     | names => Throw (Error (missing_message names))
     end, loaded_from_env rt s).
Proof.
  unfold SecretsManager.loadFromEnv, bind, emit, set_secrets, this.
  cbn [manager secrets console trace isInitialized].
  fold (env_record rt). rewrite missingSecrets_spec.
  destruct (missing_fields rt); reflexivity.
Qed.

Lemma initialize_local (rt : Runtime) (s : State) :
  process_env rt "NODE_ENV" <> Some "production" ->
  isInitialized (manager s) = false ->
  SecretsManager.initialize rt s =
    match missing_fields rt with
    | [] => (Ok tt, {| manager := {| secrets := AppSecrets.object (env_record rt);
                                     isInitialized := true |};
                       console := console s;
                       trace := trace s ++ [EvReadEnv] |})
    | names => (Throw (Error (missing_message names)), loaded_from_env rt s)
    end.
Proof.
  intros Hmode Hinit.
  unfold SecretsManager.initialize, bind, this. rewrite Hinit.
  rewrite bool_decide_eq_false_2 by exact Hmode.
  rewrite loadFromEnv_run. destruct (missing_fields rt); reflexivity.
Qed.

Lemma initialize_ready (rt : Runtime) (s : State) :
  isInitialized (manager s) = true ->
  SecretsManager.initialize rt s = (Ok tt, s).
Proof.
  intros H. unfold SecretsManager.initialize, bind, this. now rewrite H.
Qed.

Lemma loadFromGitHub_run (rt : Runtime) (s : State) :
  SecretsManager.loadFromGitHub rt s =
    if parameter_missing rt then
      (Throw SecretsManager.failed_to_initialize,
       with_console s [(github_label, SecretsManager.github_configuration_missing)])
    else
      let fetched := with_trace s [fetch_event rt] in
      let failed e :=
        (Throw SecretsManager.failed_to_initialize,
         with_console fetched [(github_label, e)]) in
      match getContent rt (default EmptyString (process_env rt "GITHUB_TOKEN"))
              (default EmptyString (process_env rt "GITHUB_REPO_OWNER"))
              (default EmptyString (process_env rt "GITHUB_REPO_NAME"))
              (or_else (process_env rt "GITHUB_SECRETS_PATH") "secrets.json")
      with
      | Rejected e => failed e
      | Resolved content =>
          if absent content then failed SecretsManager.failed_to_fetch
          else
            match JSON_parse rt (base64_utf8 rt (default EmptyString content)) with
            | Ok v =>
                (Ok tt, {| manager := {| secrets := v;
                                         isInitialized := isInitialized (manager s) |};
                           console := console s;
                           trace := trace s ++ [fetch_event rt] |})
            | Throw e => failed e
            end
      end.
Proof.
  unfold SecretsManager.loadFromGitHub, parameter_missing, try_catch.
  destruct (absent (process_env rt "GITHUB_TOKEN") ||
            absent (process_env rt "GITHUB_REPO_OWNER") ||
            absent (process_env rt "GITHUB_REPO_NAME")); [reflexivity|].
  unfold bind, SecretsManager.octokit_getContent, bind, emit.
  destruct (getContent rt _ _ _ _) as [e|content]; [reflexivity|].
  cbn [ret]. destruct (absent content); [reflexivity|].
  destruct (JSON_parse rt _); reflexivity.
Qed.

Lemma initialize_remote (rt : Runtime) (s : State) :
  process_env rt "NODE_ENV" = Some "production" ->
  isInitialized (manager s) = false ->
  SecretsManager.initialize rt s =
    match SecretsManager.loadFromGitHub rt s with
    | (Ok _, s') =>
        (Ok tt, {| manager := {| secrets := secrets (manager s');
                                 isInitialized := true |};
                   console := console s'; trace := trace s' |})
    | (Throw e, s') => (Throw e, s')
    end.
Proof.
  intros Hmode Hinit.
  unfold SecretsManager.initialize, bind, this. rewrite Hinit.
  rewrite bool_decide_eq_true_2 by exact Hmode.
  destruct (SecretsManager.loadFromGitHub rt s) as [[[]|e] s']; reflexivity.
Qed.

Lemma loads_app (a b : list Event) : loads (a ++ b) = loads a + loads b.
Proof. unfold loads. now rewrite List.filter_app, List.length_app. Qed.

Lemma missing_fields_nil (rt : Runtime) :
  missing_fields rt = [] ->
  all_fields_non_empty (AppSecrets.object (env_record rt)) = true.
Proof.
  unfold missing_fields, field_variables, all_fields_non_empty, AppSecrets.object,
    AppSecrets.keys, env_record.
  cbn [List.filter List.map fst snd List.forallb assoc String.eqb Ascii.eqb
       Bool.eqb AppSecrets.databaseUrl AppSecrets.apiKey AppSecrets.jwtSecret
       AppSecrets.redisUrl AppSecrets.stripeSecretKey].
  rewrite !non_empty_or_else.
  destruct (absent (process_env rt "DATABASE_URL")),
           (absent (process_env rt "API_KEY")),
           (absent (process_env rt "JWT_SECRET")),
           (absent (process_env rt "REDIS_URL")),
           (absent (process_env rt "STRIPE_SECRET_KEY"));
    cbn; intros H; (discriminate H || reflexivity).
Qed.

(** The local loader keeps the invariant: when local-mode initialisation
    succeeds, all five stored fields are non-empty strings. *)
Lemma initialize_local_non_empty (rt : Runtime) (s s1 : State) :
  process_env rt "NODE_ENV" <> Some "production" ->
  isInitialized (manager s) = false ->
  SecretsManager.initialize rt s = (Ok tt, s1) ->
  all_fields_non_empty (secrets (manager s1)) = true.
Proof.
  intros Hmode Hinit. rewrite initialize_local by assumption.
  destruct (missing_fields rt) eqn:E; [|discriminate].
  intros [= <-]. cbn [manager secrets]. now apply missing_fields_nil.
Qed.

(** The remote loader stores whatever the fetched file parses to. *)
Lemma initialize_remote_stores_parse_result (rt : Runtime) (s : State)
    (content : string) (v : JsValue) :
  process_env rt "NODE_ENV" = Some "production" ->
  isInitialized (manager s) = false ->
  parameter_missing rt = false ->
  getContent rt (default EmptyString (process_env rt "GITHUB_TOKEN"))
    (default EmptyString (process_env rt "GITHUB_REPO_OWNER"))
    (default EmptyString (process_env rt "GITHUB_REPO_NAME"))
    (or_else (process_env rt "GITHUB_SECRETS_PATH") "secrets.json")
    = Resolved (Some content) ->
  content <> EmptyString ->
  JSON_parse rt (base64_utf8 rt content) = Ok v ->
  SecretsManager.initialize rt s =
    (Ok tt, {| manager := {| secrets := v; isInitialized := true |};
               console := console s;
               trace := trace s ++ [fetch_event rt] |}).
Proof.
  intros Hmode Hinit Hparams Hfetch Hne Hparse.
  rewrite initialize_remote, loadFromGitHub_run, Hparams, Hfetch by assumption.
  destruct content as [|c content]; [congruence|].
  cbn [absent default from_option id]. cbv zeta.
  change (id (String c content)) with (String c content).
  rewrite Hparse. reflexivity.
Qed.

(** Reading before anything was stored throws. *)
Lemma getSecrets_null (s : State) :
  secrets (manager s) = JNull ->
  SecretsManager.getSecrets s = (Throw SecretsManager.not_initialized, s).
Proof.
  intros H. unfold SecretsManager.getSecrets, bind, this. now rewrite H.
Qed.

(** ** The configuration store *)

(** C1 (the code departs from the claim).  The claim: whenever the ready
    flag is false, [getSecrets()] fails with the not-initialised error, in
    particular after a local-mode [initialize()] that failed on missing
    fields.  The code: with no variable set, local-mode [initialize()]
    throws and leaves the ready flag false, but [loadFromEnv] has already
    stored the record of empty strings, and [getSecrets()], which tests
    the stored value and not the flag, returns it. *)
Theorem getSecrets_after_failed_local_initialize :
  exists s1,
    SecretsManager.initialize Example.local_unset initial =
      (Throw (Error (missing_message AppSecrets.keys)), s1) /\
    isInitialized (manager s1) = false /\
    SecretsManager.isReady s1 = (Ok false, s1) /\
    SecretsManager.getSecrets s1 =
      (Ok (AppSecrets.object (AppSecrets.mk EmptyString EmptyString EmptyString
                                EmptyString EmptyString)), s1).
Proof.
  eexists. split; [vm_compute; reflexivity|].
  repeat split.
Qed.

(** C2 (the code departs from the claim).  The claim: a successful
    [initialize()] in either mode leaves five non-empty string fields in
    the store.  The code: the remote loader stores whatever the fetched
    file parses to without the validation the local loader has; for a
    secrets file holding the empty object, [initialize()] succeeds, the
    ready flag is set, and no field is a non-empty string. *)
Theorem initialize_remote_stores_unvalidated :
  exists s1,
    SecretsManager.initialize Example.remote_empty_object initial = (Ok tt, s1) /\
    isInitialized (manager s1) = true /\
    secrets (manager s1) = JObj [] /\
    all_fields_non_empty (secrets (manager s1)) = false /\
    trace s1 = [EvFetch "ghp_token" "owner" "repo" "secrets.json"].
Proof.
  eexists. split; [vm_compute; reflexivity|].
  repeat split.
Qed.

(** After any local-mode initialisation that fails on missing fields, the
    ready flag is false and [getSecrets()] hands out the partial record. *)
Lemma failed_local_initialize_leaves_record (rt : Runtime) (s : State) :
  process_env rt "NODE_ENV" <> Some "production" ->
  isInitialized (manager s) = false ->
  missing_fields rt <> [] ->
  exists e s1,
    SecretsManager.initialize rt s = (Throw e, s1) /\
    isInitialized (manager s1) = false /\
    SecretsManager.getSecrets s1 = (Ok (AppSecrets.object (env_record rt)), s1).
Proof.
  intros Hmode Hinit Hmiss. rewrite initialize_local by assumption.
  destruct (missing_fields rt) as [|n ns]; [congruence|].
  eexists _, _. split; [reflexivity|]. split; [exact Hinit|reflexivity].
Qed.

(** C3, as stated, fails: in remote mode with only the access token
    unset, [initialize()] throws the generic message, which does not name
    the missing GITHUB_TOKEN; and the cause it logs names all three
    parameters, two of which are set. *)
Lemma remote_missing_parameter_message_counterexample :
  exists e s1,
    SecretsManager.initialize Example.remote_no_token initial = (Throw e, s1) /\
    absent (process_env Example.remote_no_token "GITHUB_TOKEN") = true /\
    Str.includes "GITHUB_TOKEN" (message e) = false /\
    ~ names_exactly_missing Example.remote_no_token (message e) /\
    ~ names_exactly_missing Example.remote_no_token
        (message SecretsManager.github_configuration_missing).
Proof.
  eexists _, _. split; [vm_compute; reflexivity|].
  split; [reflexivity|]. split; [reflexivity|]. split.
  - intros H. destruct (H "GITHUB_TOKEN") as [_ H']; [cbn; tauto|].
    specialize (H' eq_refl). vm_compute in H'. discriminate.
  - intros H. destruct (H "GITHUB_REPO_OWNER") as [H' _]; [cbn; tauto|].
    specialize (H' eq_refl). vm_compute in H'. discriminate.
Qed.

(** C3 (amended).  In remote mode, whenever at least one of the three
    required parameters is unset or empty, [initialize()] fails with an
    error before any fetch is issued, and the store is left as it was, not
    ready; the cause raised for it, which is what gets logged, is one fixed
    message that names all three required parameters, whichever of them
    are missing. *)
Theorem initialize_remote_parameter_missing (rt : Runtime) (s : State) :
  process_env rt "NODE_ENV" = Some "production" ->
  isInitialized (manager s) = false ->
  parameter_missing rt = true ->
  exists e s1,
    SecretsManager.initialize rt s = (Throw e, s1) /\
    manager s1 = manager s /\
    trace s1 = trace s /\
    console s1 =
      console s ++ [(github_label, SecretsManager.github_configuration_missing)] /\
    forall p, In p required_parameters ->
      Str.includes p (message SecretsManager.github_configuration_missing) = true.
Proof.
  intros Hmode Hinit Hmiss.
  rewrite initialize_remote, loadFromGitHub_run, Hmiss by assumption.
  eexists _, _. split; [reflexivity|]. repeat split.
  intros p Hp. cbn in Hp.
  destruct Hp as [<-|[<-|[<-|[]]]]; vm_compute; reflexivity.
Qed.

Lemma initialize_remote_parameter_missing_witness :
  exists e s1,
    SecretsManager.initialize Example.remote_no_token initial = (Throw e, s1) /\
    manager s1 = manager initial /\
    trace s1 = trace initial /\
    console s1 =
      console initial ++
        [(github_label, SecretsManager.github_configuration_missing)] /\
    forall p, In p required_parameters ->
      Str.includes p (message SecretsManager.github_configuration_missing) = true.
Proof.
  apply (initialize_remote_parameter_missing Example.remote_no_token initial);
    vm_compute; reflexivity.
Defined.

(** Once the ready flag is set, [initialize()] changes nothing. *)
Lemma initialize_idempotent (rt : Runtime) (s s1 : State) :
  SecretsManager.initialize rt s = (Ok tt, s1) ->
  isInitialized (manager s1) = true /\
  SecretsManager.initialize rt s1 = (Ok tt, s1).
Proof.
  intros H.
  assert (Hready : isInitialized (manager s1) = true).
  { revert H. unfold SecretsManager.initialize, bind, this.
    destruct (isInitialized (manager s)) eqn:Hinit.
    - intros [= <-]. exact Hinit.
    - destruct (if bool_decide _ then _ else _) as [[[]|e] s'];
        [|discriminate]. unfold set_isInitialized. now intros [= <-]. }
  split; [exact Hready|]. now apply initialize_ready.
Qed.

(** C7.  From a store that is not ready, when a first [initialize()]
    succeeds, a second one in sequence returns at once, without error and
    without touching the state (so without reading the environment or
    fetching again): the two calls together perform exactly one underlying
    load, and the store is ready after the first as after the second. *)
Theorem initialize_twice_loads_once (rt : Runtime) (s s1 : State) :
  isInitialized (manager s) = false ->
  SecretsManager.initialize rt s = (Ok tt, s1) ->
  SecretsManager.initialize rt s1 = (Ok tt, s1) /\
  (SecretsManager.initialize rt ;;; SecretsManager.initialize rt) s = (Ok tt, s1) /\
  loads (trace s1) = S (loads (trace s)) /\
  isInitialized (manager s1) = true.
Proof.
  intros Hinit H.
  destruct (initialize_idempotent rt s s1 H) as [Hready Hsecond].
  split; [exact Hsecond|]. split.
  { unfold bind. now rewrite H. }
  split; [|exact Hready].
  revert H.
  destruct (decide (process_env rt "NODE_ENV" = Some "production")) as [Hmode|Hmode].
  - rewrite initialize_remote, loadFromGitHub_run by assumption.
    destruct (parameter_missing rt); [discriminate|]. cbv zeta.
    destruct (getContent rt _ _ _ _) as [e|content]; [discriminate|].
    destruct (absent content); [discriminate|].
    destruct (JSON_parse rt _); [|discriminate].
    intros [= <-]. cbn [trace]. rewrite loads_app. cbn. lia.
  - rewrite initialize_local by assumption.
    destruct (missing_fields rt); [|discriminate].
    intros [= <-]. cbn [trace]. rewrite loads_app. cbn. lia.
Qed.

Lemma initialize_twice_loads_once_witness :
  exists s1,
    SecretsManager.initialize Example.local_full initial = (Ok tt, s1) /\
    SecretsManager.initialize Example.local_full s1 = (Ok tt, s1) /\
    (SecretsManager.initialize Example.local_full ;;;
     SecretsManager.initialize Example.local_full) initial = (Ok tt, s1) /\
    loads (trace s1) = S (loads (trace initial)) /\
    isInitialized (manager s1) = true.
Proof.
  eexists. split; [vm_compute; reflexivity|].
  apply (initialize_twice_loads_once Example.local_full initial);
    vm_compute; reflexivity.
Defined.

(** C8.  In local mode, when N >= 1 of the five fields are unset or empty,
    [initialize()] fails with the error whose message lists, after its
    fixed prefix, the names of all N missing fields in field order, joined
    by commas: every missing field name occurs in the message. *)
Theorem initialize_local_reports_all_missing (rt : Runtime) (s : State) :
  process_env rt "NODE_ENV" <> Some "production" ->
  isInitialized (manager s) = false ->
  (1 <= List.length (missing_fields rt))%nat ->
  exists s1,
    SecretsManager.initialize rt s =
      (Throw (Error ("Missing required secrets: " +:+
                     Str.join ", " (missing_fields rt))), s1) /\
    isInitialized (manager s1) = false /\
    forall name, In name (missing_fields rt) ->
      Str.includes name
        ("Missing required secrets: " +:+ Str.join ", " (missing_fields rt)) = true.
Proof.
  intros Hmode Hinit Hn. rewrite initialize_local by assumption.
  destruct (missing_fields rt) as [|n ns] eqn:E; [cbn in Hn; lia|].
  eexists. split; [reflexivity|]. split; [exact Hinit|].
  intros name Hin. apply includes_app_l, includes_join, Hin.
Qed.

Lemma initialize_local_reports_all_missing_witness :
  missing_fields Example.local_partial =
    [ "databaseUrl"; "redisUrl"; "stripeSecretKey" ] /\
  exists s1,
    SecretsManager.initialize Example.local_partial initial =
      (Throw (Error ("Missing required secrets: " +:+
                     Str.join ", " (missing_fields Example.local_partial))), s1) /\
    isInitialized (manager s1) = false /\
    forall name, In name (missing_fields Example.local_partial) ->
      Str.includes name
        ("Missing required secrets: " +:+
         Str.join ", " (missing_fields Example.local_partial)) = true.
Proof.
  split; [vm_compute; reflexivity|].
  apply (initialize_local_reports_all_missing Example.local_partial initial).
  - vm_compute. discriminate.
  - reflexivity.
  - vm_compute. lia.
Defined.

(** ** The request gate *)

Lemma getSecrets_ready (rt : Runtime) (s : State) (fs : list (string * JsValue)) :
  isInitialized (manager s) = true ->
  secrets (manager s) = JObj fs ->
  getSecrets rt s = (Ok (JObj fs), with_trace s [EvGetSecrets]).
Proof.
  intros Hinit Hsec.
  unfold getSecrets, SecretsManager.isReady, SecretsManager.getSecrets,
    bind, emit, this, ret. cbn [manager]. rewrite Hinit, Hsec.
  cbn. rewrite Hsec. reflexivity.
Qed.

(** The code's choice of header in terms of the two strategies. *)
Lemma providedApiKey_strategies (h : Headers.t) :
  providedApiKey (Headers.get h "authorization") (Headers.get h "x-api-key") =
    match Extraction.bearer h with
    | Some token => Some token
    | None => Extraction.x_api_key h
    end.
Proof.
  unfold providedApiKey, Extraction.bearer, Extraction.x_api_key.
  destruct (Headers.get h "authorization") as [a|]; [|reflexivity].
  destruct (String.prefix "Bearer " a); reflexivity.
Qed.

(** On the values a [Headers] object can hold, a matching bearer scheme
    always carries a non-empty token. *)
Lemma bearer_non_empty (req : NextRequest) (token : string) :
  Extraction.bearer (AuthenticatedRequest.headers req) = Some token ->
  token <> EmptyString.
Proof.
  unfold Extraction.bearer, AuthenticatedRequest.headers.
  pose proof (get_not_bare_bearer (AuthenticatedRequest.header_lines req)
                "authorization") as Hne.
  destruct (Headers.get _ "authorization") as [a|]; [|discriminate].
  destruct (String.prefix "Bearer " a) eqn:Hp; [|discriminate].
  intros [= <-]. apply bearer_token_non_empty; congruence.
Qed.

(** Taken alone, the selection returns the empty token of a bare scheme
    without looking at the other header; [get_not_bare_bearer] is what
    keeps that value from reaching it. *)
Lemma providedApiKey_bare_scheme (other : option string) :
  providedApiKey (Some "Bearer ") other = Some EmptyString.
Proof. reflexivity. Qed.

Lemma validateApiKey_absent (rt : Runtime) (req : NextRequest) (s : State) :
  absent (providedApiKey
            (Headers.get (AuthenticatedRequest.headers req) "authorization")
            (Headers.get (AuthenticatedRequest.headers req) "x-api-key")) = true ->
  validateApiKey rt req s = (Ok (rejected req api_key_required), s).
Proof. intros H. unfold validateApiKey. now rewrite H. Qed.

Lemma validateApiKey_present (rt : Runtime) (req : NextRequest) (s : State) :
  absent (providedApiKey
            (Headers.get (AuthenticatedRequest.headers req) "authorization")
            (Headers.get (AuthenticatedRequest.headers req) "x-api-key")) = false ->
  fst (validateApiKey rt req s) <> Ok (rejected req api_key_required).
Proof.
  intros H. unfold validateApiKey. rewrite H.
  unfold try_catch, bind.
  destruct (getSecrets rt s) as [[v|e] s1]; [|cbn; discriminate].
  destruct v; cbn; try discriminate;
    repeat match goal with
           | |- context [if ?b then _ else _] => destruct b; cbn
           end; discriminate.
Qed.

Lemma first_non_empty_strategies (h : Headers.t) :
  Extraction.first_non_empty Extraction.strategies h =
    if absent (Extraction.bearer h)
    then (if absent (Extraction.x_api_key h) then None else Extraction.x_api_key h)
    else Extraction.bearer h.
Proof. reflexivity. Qed.

(** C4.  For every incoming request the gate takes the bearer token of
    the authorization header when that header has the bearer scheme, such
    a token never being empty, and the X-API-Key header otherwise; what it
    takes, when non-empty, is the first non-empty result of the two
    strategies in that order; and it answers 401 MissingCredential exactly
    when neither strategy yields a non-empty string.  In particular a
    request sent with the bare scheme as its authorization header and a
    non-empty X-API-Key header is not rejected as missing a credential:
    its candidate is the X-API-Key value. *)
Theorem credential_extraction_order (rt : Runtime) (req : NextRequest) (s : State) :
  let h := AuthenticatedRequest.headers req in
  let candidate :=
    providedApiKey (Headers.get h "authorization") (Headers.get h "x-api-key") in
  (forall token, Extraction.bearer h = Some token ->
     token <> EmptyString /\ candidate = Some token) /\
  (Extraction.bearer h = None -> candidate = Extraction.x_api_key h) /\
  Extraction.first_non_empty Extraction.strategies h =
    (if absent candidate then None else candidate) /\
  (fst (validateApiKey rt req s) = Ok (rejected req api_key_required) <->
   Extraction.first_non_empty Extraction.strategies h = None) /\
  (forall key,
     AuthenticatedRequest.header_lines req =
       [ ("Authorization", "Bearer "); ("X-API-Key", key) ] ->
     Headers.normalize key <> EmptyString ->
     candidate = Some (Headers.normalize key) /\
     fst (validateApiKey rt req s) <> Ok (rejected req api_key_required)).
Proof.
  intros h candidate.
  assert (Hc : candidate =
               match Extraction.bearer h with
               | Some token => Some token
               | None => Extraction.x_api_key h
               end) by apply providedApiKey_strategies.
  assert (Hfirst : Extraction.first_non_empty Extraction.strategies h =
                   (if absent candidate then None else candidate)).
  { rewrite first_non_empty_strategies, Hc.
    destruct (Extraction.bearer h) as [token|] eqn:Hb.
    - apply bearer_non_empty in Hb. destruct token; [congruence|reflexivity].
    - cbn. destruct (absent (Extraction.x_api_key h)); reflexivity. }
  assert (Hreject : fst (validateApiKey rt req s) = Ok (rejected req api_key_required)
                    <-> absent candidate = true).
  { split.
    - intros H. destruct (absent candidate) eqn:Ha; [reflexivity|].
      now apply (validateApiKey_present rt req s) in Ha.
    - intros Ha. now rewrite (validateApiKey_absent rt req s Ha). }
  split.
  { intros token Hb. split; [now apply (bearer_non_empty req)|].
    rewrite Hc. fold h in Hb. now rewrite Hb. }
  split.
  { intros Hb. rewrite Hc. now rewrite Hb. }
  split; [exact Hfirst|].
  split.
  { rewrite Hreject, Hfirst.
    destruct candidate as [[|c k]|]; cbn; split; congruence. }
  intros key Hlines Hkey.
  assert (Hcand : candidate = Some (Headers.normalize key)).
  { subst candidate h. unfold AuthenticatedRequest.headers. rewrite Hlines.
    reflexivity. }
  split; [exact Hcand|].
  rewrite Hreject, Hcand. destruct (Headers.normalize key); [congruence|].
  cbn. discriminate.
Qed.

Lemma credential_extraction_order_witness :
  let req := Example.request [ ("Authorization", "Bearer "); ("X-API-Key", "K1") ]
               Example.no_body in
  providedApiKey
    (Headers.get (AuthenticatedRequest.headers req) "authorization")
    (Headers.get (AuthenticatedRequest.headers req) "x-api-key") = Some "K1" /\
  fst (validateApiKey Example.local_full req initial)
    <> Ok (rejected req api_key_required).
Proof.
  intros req.
  apply (proj2 (proj2 (proj2 (proj2
           (credential_extraction_order Example.local_full req initial)))) "K1").
  - reflexivity.
  - vm_compute. discriminate.
Defined.

(** C5.  For a request whose candidate credential is non-empty, and a
    ready store whose configured api key is a non-empty string: when the
    candidate is the very same string, validation succeeds and the wrapped
    handler is run on a context carrying that credential and the stored
    record, its response being returned; when it is any other string, the
    gate answers 401 InvalidCredential whatever the handler is, so without
    running it.  Validation is positive exactly on equality. *)
Theorem gate_exact_equality (rt : Runtime) (req : NextRequest) (s : State)
    (fs : list (string * JsValue)) (configured candidate : string) :
  isInitialized (manager s) = true ->
  secrets (manager s) = JObj fs ->
  assoc "apiKey" fs = JStr configured ->
  configured <> EmptyString ->
  providedApiKey
    (Headers.get (AuthenticatedRequest.headers req) "authorization")
    (Headers.get (AuthenticatedRequest.headers req) "x-api-key") = Some candidate ->
  candidate <> EmptyString ->
  let s1 := with_trace s [EvGetSecrets] in
  let context :=
    {| AuthenticatedRequest.header_lines := AuthenticatedRequest.header_lines req;
       AuthenticatedRequest.json := AuthenticatedRequest.json req;
       AuthenticatedRequest.apiKey := Some candidate;
       AuthenticatedRequest.secrets := Some (secrets (manager s)) |} in
  (candidate = configured ->
     validateApiKey rt req s =
       (Ok {| isValid := true; request := context; response := None |}, s1) /\
     forall handler,
       withApiKeyAuth rt handler req s =
         (let* r := handler context in ret (Some r)) s1) /\
  (candidate <> configured ->
     validateApiKey rt req s = (Ok (rejected req invalid_api_key), s1) /\
     forall handler,
       withApiKeyAuth rt handler req s = (Ok (Some invalid_api_key), s1)) /\
  (forall result s2,
     validateApiKey rt req s = (Ok result, s2) ->
     (isValid result = true <-> candidate = configured)) /\
  NextResponse.status invalid_api_key = 401.
Proof.
  intros Hinit Hsec Hkey Hconf Hcand Hne s1 context.
  assert (Hrun : validateApiKey rt req s =
            (Ok (if String.eqb candidate configured
                 then {| isValid := true; request := context; response := None |}
                 else rejected req invalid_api_key), s1)).
  { unfold validateApiKey. rewrite Hcand.
    destruct candidate as [|c k]; [congruence|]. cbn [absent default].
    unfold try_catch, bind. rewrite (getSecrets_ready rt s fs Hinit Hsec).
    cbn [get_prop ret]. rewrite Hkey.
    destruct configured as [|c' k']; [congruence|]. cbn [truthy Str.is_empty negb].
    cbn [strict_eq_str]. subst context. rewrite Hsec. cbv [id].
    destruct (String.eqb (String c k) (String c' k')); reflexivity. }
  split; [|split; [|split; [|reflexivity]]].
  - intros ->. rewrite String.eqb_refl in Hrun. split; [exact Hrun|].
    intros handler. unfold withApiKeyAuth, bind at 1. rewrite Hrun. reflexivity.
  - intros Hdiff. apply String.eqb_neq in Hdiff. rewrite Hdiff in Hrun.
    split; [exact Hrun|].
    intros handler. unfold withApiKeyAuth, bind. rewrite Hrun. reflexivity.
  - intros result s2. rewrite Hrun. intros [= <- _].
    destruct (String.eqb candidate configured) eqn:E.
    + apply String.eqb_eq in E. cbn. tauto.
    + apply String.eqb_neq in E. cbn. split; [discriminate|tauto].
Qed.

Lemma gate_exact_equality_witness :
  let req := Example.request [ ("Authorization", "Bearer K1") ] Example.no_body in
  let s := Example.ready Example.record in
  validateApiKey Example.local_full req s =
    (Ok {| isValid := true;
           request :=
             {| AuthenticatedRequest.header_lines := [ ("Authorization", "Bearer K1") ];
                AuthenticatedRequest.json := Example.no_body;
                AuthenticatedRequest.apiKey := Some "K1";
                AuthenticatedRequest.secrets :=
                  Some (AppSecrets.object Example.record) |};
           response := None |},
     with_trace s [EvGetSecrets]).
Proof.
  intros req s.
  refine (proj1 (proj1 (gate_exact_equality Example.local_full req s
                          _ "K1" "K1" _ _ _ _ _ _) _)).
  - reflexivity.
  - reflexivity.
  - reflexivity.
  - discriminate.
  - reflexivity.
  - discriminate.
  - reflexivity.
Defined.

(** C6.  When neither credential header yields a non-empty string, the
    gate answers its 401 MissingCredential rejection and leaves the whole
    state as it was: the trace gains no call of [getSecrets()], no
    environment read and no fetch, and the wrapped handler is not run. *)
Theorem missing_credential_rejected_first (rt : Runtime) (req : NextRequest)
    (s : State) :
  absent (Extraction.bearer (AuthenticatedRequest.headers req)) = true ->
  absent (Extraction.x_api_key (AuthenticatedRequest.headers req)) = true ->
  validateApiKey rt req s = (Ok (rejected req api_key_required), s) /\
  (forall handler,
     withApiKeyAuth rt handler req s = (Ok (Some api_key_required), s)) /\
  trace (snd (validateApiKey rt req s)) = trace s /\
  NextResponse.status api_key_required = 401.
Proof.
  intros Hb Hx.
  assert (Hrun : validateApiKey rt req s = (Ok (rejected req api_key_required), s)).
  { apply validateApiKey_absent. rewrite providedApiKey_strategies.
    destruct (Extraction.bearer _) as [token|]; [exact Hb|exact Hx]. }
  split; [exact Hrun|]. split.
  - intros handler. unfold withApiKeyAuth, bind. rewrite Hrun. reflexivity.
  - rewrite Hrun. split; reflexivity.
Qed.

Lemma missing_credential_rejected_first_witness :
  let req := Example.request [ ("Authorization", "Basic abc") ] Example.no_body in
  validateApiKey Example.local_full req initial =
    (Ok (rejected req api_key_required), initial).
Proof.
  intros req.
  apply (missing_credential_rejected_first Example.local_full req initial);
    reflexivity.
Defined.

(** ** The routes *)

Lemma non_empty_fields_truthy (r : AppSecrets.t) :
  non_empty_fields r = true ->
  truthy (JStr (AppSecrets.databaseUrl r)) = true /\
  truthy (JStr (AppSecrets.apiKey r)) = true /\
  truthy (JStr (AppSecrets.jwtSecret r)) = true /\
  truthy (JStr (AppSecrets.redisUrl r)) = true /\
  truthy (JStr (AppSecrets.stripeSecretKey r)) = true.
Proof.
  unfold non_empty_fields, field_values. cbn [List.forallb truthy].
  rewrite !andb_true_iff. tauto.
Qed.

(** What the helper hands out is the stored value, and it is truthy. *)
Lemma getSecrets_ok (rt : Runtime) (s s1 : State) (v : JsValue) :
  getSecrets rt s = (Ok v, s1) ->
  truthy v = true /\ secrets (manager s1) = v.
Proof.
  unfold getSecrets, bind.
  destruct (emit EvGetSecrets s) as [[u|e] s0]; [|discriminate].
  destruct (SecretsManager.isReady s0) as [[b|e] s0']; [|discriminate].
  destruct ((if negb b then SecretsManager.initialize rt else ret tt) s0')
    as [[u'|e] s2]; [|discriminate].
  unfold SecretsManager.getSecrets, bind, this, ret, throw.
  destruct (truthy (secrets (manager s2))) eqn:T; cbn [negb];
    [|discriminate].
  intros [= <- <-]. split; [exact T|reflexivity].
Qed.

(** *** The text of the status response *)

Lemma quote_app (x rest : string) :
  Json.quote x +:+ rest =
    String Json.dquote (Json.escape x +:+ String Json.dquote rest).
Proof.
  unfold Json.quote.
  change (String Json.dquote
            ((Json.escape x +:+ String Json.dquote EmptyString) +:+ rest) =
          String Json.dquote (Json.escape x +:+ String Json.dquote rest)).
  now rewrite append_assoc.
Qed.

Ltac text_normal :=
  unfold status_text, all_configured, before_environment, before_timestamp,
    before_lone_timestamp, opening, configured_members;
  cbn [Json.stringify omap list_omap fst snd optional default from_option id];
  unfold Str.join; cbn [String.concat]; cbv [id];
  rewrite !append_assoc, !quote_app, ?append_assoc.

Lemma status_text_named (env ts : string) :
  status_text (Some env) ts =
    before_environment +:+
    String Json.dquote (Json.escape env +:+
    String Json.dquote (before_timestamp +:+
    String Json.dquote (Json.escape ts +:+ String Json.dquote "}"))).
Proof. text_normal. reflexivity. Qed.

Lemma status_text_unnamed (ts : string) :
  status_text None ts =
    before_lone_timestamp +:+
    String Json.dquote (Json.escape ts +:+ String Json.dquote "}").
Proof. text_normal. reflexivity. Qed.

Lemma stringify_all_configured (env : option string) (ts : string) :
  Json.stringify (all_configured env ts) = Some (status_text env ts).
Proof. destruct env; reflexivity. Qed.

Ltac by_cases_on_includes :=
  repeat match goal with
         | |- context [Str.includes ?v ?x] =>
             destruct (Str.includes v x); cbn [orb]; try reflexivity
         end;
  try (intros; discriminate).

(** A text without a double quote occurs in the status text only inside
    one of the stretches between two quotes: those of the fixed text, the
    environment name or the timestamp. *)
Lemma occurs_in_status_text (env : option string) (ts v : string) :
  no_dquote v = true ->
  Str.includes v (status_text env ts) = true ->
  Str.includes v fixed_response_text ||
  match env with Some e => Str.includes v (Json.escape e) | None => false end ||
  Str.includes v (Json.escape ts) = true.
Proof.
  intros Hv.
  change fixed_response_text with (status_text (Some EmptyString) EmptyString).
  destruct env as [e|];
    rewrite ?status_text_named, ?status_text_unnamed;
    unfold before_environment, before_timestamp, before_lone_timestamp;
    rewrite ?quote_app, !(includes_split v _ _ Hv);
    by_cases_on_includes.
Qed.

(** C9 (amended).  Whenever the status request answers 200 and the store
    then holds a record with five non-empty fields, also when it is this
    request that loads the record, the response is the all-configured body
    made from the environment name and the timestamp alone: it is the same
    whatever the five values are.  A field value without a double quote
    occurs in the serialised body only if it occurs in the fixed text of
    the response, in the serialised environment name or in the serialised
    timestamp. *)
Theorem status_response_independent_of_values (rt : Runtime) (req : NextRequest)
    (s s1 : State) (resp : NextResponse.t) (r : AppSecrets.t) :
  GET rt req s = (Ok resp, s1) ->
  NextResponse.status resp = 200 ->
  secrets (manager s1) = AppSecrets.object r ->
  non_empty_fields r = true ->
  let environment := process_env rt "NODE_ENV" in
  let text := status_text environment (now rt) in
  resp = NextResponse.json (all_configured environment (now rt)) 200 /\
  NextResponse.text resp = Some text /\
  forall v : string,
    In v (field_values r) ->
    no_dquote v = true ->
    Str.includes v text = true ->
    Str.includes v fixed_response_text = true \/
    (exists e, environment = Some e /\ Str.includes v (Json.escape e) = true) \/
    Str.includes v (Json.escape (now rt)) = true.
Proof.
  intros Hrun Hstatus Hsec Hne environment text.
  assert (Hresp : resp = NextResponse.json
                           (all_configured environment (now rt)) 200).
  { destruct (non_empty_fields_truthy r Hne) as (H1 & H2 & H3 & H4 & H5).
    revert Hrun. unfold GET, try_catch, bind.
    destruct (getSecrets rt s) as [[v|e] s0] eqn:Hget.
    - destruct (getSecrets_ok rt s s0 v Hget) as [Hv Hstored].
      destruct v as [| |b|n|t|items|fs]; try discriminate Hv;
        cbn [get_prop ret]; intros [= <- <-];
        rewrite Hstored in Hsec; try discriminate Hsec.
      injection Hsec as ->.
      cbn [assoc String.eqb Ascii.eqb Bool.eqb].
      unfold indicator. rewrite H1, H2, H3, H4, H5. reflexivity.
    - unfold console_error, ret. intros [= <- <-].
      cbn in Hstatus. discriminate Hstatus. }
  split; [exact Hresp|]. split.
  { rewrite Hresp. apply stringify_all_configured. }
  intros v _ Hv Hin.
  pose proof (occurs_in_status_text environment (now rt) v Hv Hin) as H.
  apply orb_true_iff in H as [H|H]; [apply orb_true_iff in H as [H|H]|].
  - left. exact H.
  - right. left. destruct environment as [e|]; [|discriminate H].
    exists e. split; [reflexivity|exact H].
  - right. right. exact H.
Qed.

Lemma status_response_independent_of_values_witness :
  let rt := Example.local_year in
  let r := env_record rt in
  exists resp s1,
    GET rt (Example.request [] Example.no_body) initial = (Ok resp, s1) /\
    resp = NextResponse.json (all_configured (process_env rt "NODE_ENV") (now rt)) 200 /\
    NextResponse.text resp = Some (status_text (process_env rt "NODE_ENV") (now rt)) /\
    forall v : string,
      In v (field_values r) ->
      no_dquote v = true ->
      Str.includes v (status_text (process_env rt "NODE_ENV") (now rt)) = true ->
      Str.includes v fixed_response_text = true \/
      (exists e, process_env rt "NODE_ENV" = Some e /\
                 Str.includes v (Json.escape e) = true) \/
      Str.includes v (Json.escape (now rt)) = true.
Proof.
  intros rt r. eexists _, _. split; [vm_compute; reflexivity|].
  eapply (status_response_independent_of_values rt
            (Example.request [] Example.no_body) initial _ _ r);
    vm_compute; reflexivity.
Defined.

(** C9, as stated, fails: with the api key set to the text 2026, which
    occurs nowhere in the fixed text of the response, the status request
    answers 200 and the serialised body contains the api key, inside the
    timestamp. *)
Lemma status_response_secrecy_counterexample :
  let r := env_record Example.local_year in
  exists resp s1 text,
    GET Example.local_year (Example.request [] Example.no_body) initial
      = (Ok resp, s1) /\
    secrets (manager s1) = AppSecrets.object r /\
    NextResponse.status resp = 200 /\
    non_empty_fields r = true /\
    List.forallb (fun v => negb (Str.includes v fixed_response_text))
      (field_values r) = true /\
    NextResponse.text resp = Some text /\
    Str.includes (AppSecrets.apiKey r) text = true.
Proof.
  eexists _, _, _. split; [vm_compute; reflexivity|].
  split; [reflexivity|]. split; [reflexivity|]. split; [reflexivity|].
  split; [vm_compute; reflexivity|].
  split; [vm_compute; reflexivity|]. vm_compute. reflexivity.
Qed.

(** On text without multi-byte characters, cutting by code units is
    cutting by bytes. *)
Lemma take_units_ascii (n : nat) (s : string) :
  List.forallb (fun c => (nat_of_ascii c <? 128)%nat) (list_ascii_of_string s) = true ->
  Str.take_units n s = String.substring 0 n s.
Proof.
  revert s. induction n as [|n IH]; intros s H.
  - destruct s; reflexivity.
  - destruct s as [|c s]; [reflexivity|].
    cbn [list_ascii_of_string List.forallb] in H.
    apply andb_true_iff in H as [Hc Hs].
    cbn [Str.take_units String.substring]. cbv zeta.
    apply Nat.ltb_lt in Hc.
    rewrite (proj2 (Nat.ltb_lt _ 192)) by lia.
    now rewrite IH.
Qed.

(** Characters of two bytes count once each. *)
Example take_units_two_bytes :
  Str.take_units 8 "ééééééééé" = "éééééééé".
Proof. reflexivity. Qed.

Lemma escape_char_verbatim (c : ascii) :
  Json.verbatim_char c = true -> Json.escape_char c = String c EmptyString.
Proof.
  unfold Json.verbatim_char, Json.escape_char. cbv zeta.
  rewrite !andb_true_iff, !negb_true_iff, Nat.leb_le, !Nat.eqb_neq.
  intros [[[H32 H34] H92] _].
  rewrite (proj2 (Nat.eqb_neq _ 34)), (proj2 (Nat.eqb_neq _ 92)),
    (proj2 (Nat.eqb_neq _ 8)), (proj2 (Nat.eqb_neq _ 12)),
    (proj2 (Nat.eqb_neq _ 10)), (proj2 (Nat.eqb_neq _ 13)),
    (proj2 (Nat.eqb_neq _ 9)), (proj2 (Nat.ltb_ge _ 32)) by lia.
  reflexivity.
Qed.

(** Text that is written as it is stays so in front of any other text. *)
Lemma escape_verbatim_app (a b : string) :
  Json.verbatim a = true -> Json.escape (a +:+ b) = a +:+ Json.escape b.
Proof.
  induction a as [|c a IH]; [reflexivity|].
  cbn [Json.verbatim]. intros H. apply andb_true_iff in H as [Hc Hs].
  change (String c a +:+ b) with (String c (a +:+ b)).
  assert (Hstep : forall t,
             Json.escape (String c t) = Json.escape_char c +:+ Json.escape t).
  { intros t. cbn [Json.escape]. destruct t as [|b1 [|b2 r]]; try reflexivity.
    unfold Json.is_surrogate. unfold Json.verbatim_char in Hc. cbv zeta in Hc.
    rewrite !andb_true_iff, !negb_true_iff in Hc.
    destruct Hc as [_ ->]. reflexivity. }
  rewrite Hstep, (IH Hs), (escape_char_verbatim c Hc). reflexivity.
Qed.

Lemma escape_verbatim (s : string) :
  Json.verbatim s = true -> Json.escape s = s.
Proof.
  intros H. generalize (escape_verbatim_app s EmptyString H).
  now rewrite !append_empty_r.
Qed.

(** A surrogate cut off its pair goes on the wire as an escape. *)
Example escape_lone_surrogate :
  Json.escape (Str.take_units 8 "1234567😀") = "1234567\ud83d".
Proof. reflexivity. Qed.

(** A token whose secret prefix needs no escaping is on the wire as it is. *)
Lemma token_on_the_wire (jwtSecret text : string) :
  Json.verbatim (Str.take_units 8 jwtSecret) = true ->
  Json.stringify
    (JObj [ ("status", JStr "success");
            ("message", JStr "Authentication successful");
            ("token", JStr (token_of jwtSecret)) ]) = Some text ->
  Str.includes (Str.take_units 8 jwtSecret) text = true.
Proof.
  intros Hplain. cbn [Json.stringify omap list_omap fst snd].
  intros [= <-]. unfold Str.join.
  set (p := Str.take_units 8 jwtSecret) in *.
  apply includes_app_l, includes_app_r.
  do 4 apply includes_app_l.
  apply includes_app_l, includes_app_l.
  unfold Json.quote.
  change (String Json.dquote
            (Json.escape (token_of jwtSecret) +:+ String Json.dquote EmptyString))
    with (String Json.dquote EmptyString +:+
          Json.escape (token_of jwtSecret) +:+ String Json.dquote EmptyString).
  apply includes_app_l, includes_app_r.
  unfold token_of. fold p.
  rewrite (escape_verbatim_app "jwt_token_using_" (p +:+ "...") eq_refl).
  rewrite (escape_verbatim_app p "..." Hplain).
  apply includes_app_l, includes_app_r, includes_refl.
Qed.

(** C10.  For every Configuration Record held by a ready store, the POST
    request with action authenticate answers 200 with a token field that
    is the fixed text jwt_token_using_, then the first 8 characters (UTF-16
    code units, as [substring(0, 8)] counts them) of the jwtSecret value as
    they are, then three dots; so that prefix of the secret occurs in the
    token of a successful response, and in the serialised body whenever it
    holds no character JSON escapes. *)
Theorem authenticate_token_embeds_secret_prefix (rt : Runtime) (req : NextRequest)
    (s : State) (r : AppSecrets.t) (fields : list (string * JsValue)) :
  isInitialized (manager s) = true ->
  secrets (manager s) = AppSecrets.object r ->
  AuthenticatedRequest.json req = Ok (JObj fields) ->
  assoc "action" fields = JStr "authenticate" ->
  let prefix := Str.take_units 8 (AppSecrets.jwtSecret r) in
  let token := "jwt_token_using_" +:+ prefix +:+ "..." in
  let resp :=
    NextResponse.json
      (JObj [ ("status", JStr "success");
              ("message", JStr "Authentication successful");
              ("token", JStr token) ]) 200 in
  POST rt req s = (Ok resp, with_trace s [EvGetSecrets]) /\
  Str.includes prefix token = true /\
  (Json.verbatim prefix = true ->
   exists text, NextResponse.text resp = Some text /\
                Str.includes prefix text = true).
Proof.
  intros Hinit Hsec Hjson Haction prefix token resp.
  split; [|split].
  - unfold POST, try_catch, bind. rewrite Hjson. cbn [destructure ret].
    rewrite Haction, (getSecrets_ready rt s _ Hinit Hsec).
    reflexivity.
  - apply includes_app_l, includes_app_r, includes_refl.
  - intros Hplain. unfold NextResponse.text.
    destruct (Json.stringify (NextResponse.body resp)) as [text|] eqn:E;
      [|discriminate E].
    exists text. split; [reflexivity|].
    now apply (token_on_the_wire (AppSecrets.jwtSecret r) text).
Qed.

Lemma authenticate_token_embeds_secret_prefix_witness :
  POST Example.local_full
       (Example.request [] (Ok (JObj [ ("action", JStr "authenticate") ])))
       (Example.ready Example.record) =
    (Ok (NextResponse.json
           (JObj [ ("status", JStr "success");
                   ("message", JStr "Authentication successful");
                   ("token", JStr "jwt_token_using_01234567...") ]) 200),
     with_trace (Example.ready Example.record) [EvGetSecrets]).
Proof.
  apply (authenticate_token_embeds_secret_prefix Example.local_full
           (Example.request [] (Ok (JObj [ ("action", JStr "authenticate") ])))
           (Example.ready Example.record) Example.record
           [ ("action", JStr "authenticate") ]); reflexivity.
Defined.

(** * Further properties of the code *)

(** ** The store *)

Lemma getSecrets_initialized (rt : Runtime) (s : State) :
  isInitialized (manager s) = true ->
  getSecrets rt s =
    (if truthy (secrets (manager s)) then Ok (secrets (manager s))
     else Throw SecretsManager.not_initialized,
     with_trace s [EvGetSecrets]).
Proof.
  destruct s as [[sec ini] con tr]. cbn [manager isInitialized secrets].
  intros ->.
  unfold getSecrets, SecretsManager.isReady, SecretsManager.getSecrets,
    SecretsManager.initialize, bind, emit, this, ret, with_trace.
  cbn [manager isInitialized secrets console trace].
  destruct sec as [| |b|n|t|items|fs]; cbn; try reflexivity;
    match goal with
    | |- context [if ?c then _ else _] => destruct c; reflexivity
    end.
Qed.

Lemma getSecrets_fresh (rt : Runtime) (s : State) :
  isInitialized (manager s) = false ->
  getSecrets rt s =
    match SecretsManager.initialize rt (with_trace s [EvGetSecrets]) with
    | (Ok _, s1) => SecretsManager.getSecrets s1
    | (Throw e, s1) => (Throw e, s1)
    end.
Proof.
  intros Hinit.
  unfold getSecrets, SecretsManager.isReady, bind, emit, this, ret.
  cbn [manager]. rewrite Hinit. cbn [andb negb].
  unfold with_trace. destruct (SecretsManager.initialize rt _) as [[[]|e] s1];
    reflexivity.
Qed.

(** A failed [initialize()] leaves the ready flag unset. *)
Lemma initialize_throw_flag (rt : Runtime) (s s1 : State) (e : Exn) :
  SecretsManager.initialize rt s = (Throw e, s1) ->
  isInitialized (manager s1) = false.
Proof.
  destruct (isInitialized (manager s)) eqn:Hinit.
  { rewrite initialize_ready by exact Hinit. discriminate. }
  destruct (decide (process_env rt "NODE_ENV" = Some "production"))
    as [Hmode|Hmode].
  - rewrite initialize_remote, loadFromGitHub_run by assumption.
    destruct (parameter_missing rt); [now intros [= _ <-]|]. cbv zeta.
    destruct (getContent rt _ _ _ _) as [e'|content]; [now intros [= _ <-]|].
    destruct (absent content); [now intros [= _ <-]|].
    destruct (JSON_parse rt _); [discriminate|now intros [= _ <-]].
  - rewrite initialize_local by assumption.
    destruct (missing_fields rt); [discriminate|]. now intros [= _ <-].
Qed.

(** X1.  [initialize()] returns normally exactly when the ready flag is
    set afterwards: a failed call never sets it, a successful call always
    leaves it set. *)
Theorem initialize_sets_flag_iff_success (rt : Runtime) (s : State) :
  isInitialized (manager (snd (SecretsManager.initialize rt s))) = true <->
  fst (SecretsManager.initialize rt s) = Ok tt.
Proof.
  destruct (SecretsManager.initialize rt s) as [[[]|e] s1] eqn:E; cbn [fst snd].
  - split; [reflexivity|]. intros _.
    now destruct (initialize_idempotent rt s s1 E).
  - rewrite (initialize_throw_flag rt s s1 e E). split; discriminate.
Qed.

(** X2.  In remote mode every failure of [initialize()], whatever its
    cause (a missing parameter, a rejected fetch, a response without
    content, text that does not parse), reaches the caller as the one
    generic error; the cause is logged once, the store is left untouched,
    and at most the one fetch was issued. *)
Theorem remote_failure_is_generic (rt : Runtime) (s s1 : State) (e : Exn) :
  process_env rt "NODE_ENV" = Some "production" ->
  isInitialized (manager s) = false ->
  SecretsManager.initialize rt s = (Throw e, s1) ->
  e = SecretsManager.failed_to_initialize /\
  manager s1 = manager s /\
  (exists cause, console s1 = console s ++ [(github_label, cause)]) /\
  (trace s1 = trace s \/ trace s1 = trace s ++ [fetch_event rt]).
Proof.
  intros Hmode Hinit.
  rewrite initialize_remote, loadFromGitHub_run by assumption.
  destruct (parameter_missing rt).
  { intros [= <- <-]. cbn. eauto 6. }
  cbv zeta.
  destruct (getContent rt _ _ _ _) as [e'|content].
  { intros [= <- <-]. cbn. eauto 6. }
  destruct (absent content).
  { intros [= <- <-]. cbn. eauto 6. }
  destruct (JSON_parse rt _) as [v|e'']; [discriminate|].
  intros [= <- <-]. cbn. eauto 6.
Qed.

Lemma remote_failure_is_generic_witness :
  exists e s1,
    SecretsManager.initialize Example.remote_no_token initial = (Throw e, s1) /\
    e = SecretsManager.failed_to_initialize /\
    manager s1 = manager initial /\
    (exists cause, console s1 = console initial ++ [(github_label, cause)]) /\
    (trace s1 = trace initial \/
     trace s1 = trace initial ++ [fetch_event Example.remote_no_token]).
Proof.
  eexists _, _. split; [vm_compute; reflexivity|].
  apply (remote_failure_is_generic Example.remote_no_token initial);
    vm_compute; reflexivity.
Defined.

(** X3.  One call of [initialize()] extends the trace by at most one
    load, decided before anything is fetched: nothing when the store is
    already initialised or a remote parameter is missing, one environment
    read in local mode, and in remote mode the one fetch with the token,
    owner and name of the environment and the configured path, whether the
    load then succeeds or fails. *)
Theorem initialize_trace (rt : Runtime) (s : State) :
  trace (snd (SecretsManager.initialize rt s)) =
    trace s ++
      (if isInitialized (manager s) then []
       else if bool_decide (process_env rt "NODE_ENV" = Some "production")
            then (if parameter_missing rt then [] else [fetch_event rt])
            else [EvReadEnv]).
Proof.
  destruct (isInitialized (manager s)) eqn:Hinit.
  { rewrite initialize_ready by exact Hinit. cbn. now rewrite app_nil_r. }
  case_bool_decide as Hmode.
  - rewrite initialize_remote, loadFromGitHub_run by assumption.
    destruct (parameter_missing rt); [cbn; now rewrite app_nil_r|]. cbv zeta.
    destruct (getContent rt _ _ _ _) as [e'|content]; [reflexivity|].
    destruct (absent content); [reflexivity|].
    destruct (JSON_parse rt _); reflexivity.
  - rewrite initialize_local by assumption.
    destruct (missing_fields rt); reflexivity.
Qed.

(** X4.  A secrets file that parses to a falsy JSON value (null, false, 0
    or the empty string) is accepted by the remote loader: [initialize()]
    succeeds and sets the ready flag.  From then on the store cannot
    recover: in every later state with that manager, [initialize()] returns
    at once without loading, and the helper [getSecrets()] throws the
    not-initialised error. *)
Theorem falsy_document_is_permanent (rt : Runtime) (s : State)
    (content : string) (v : JsValue) :
  process_env rt "NODE_ENV" = Some "production" ->
  isInitialized (manager s) = false ->
  parameter_missing rt = false ->
  getContent rt (default EmptyString (process_env rt "GITHUB_TOKEN"))
    (default EmptyString (process_env rt "GITHUB_REPO_OWNER"))
    (default EmptyString (process_env rt "GITHUB_REPO_NAME"))
    (or_else (process_env rt "GITHUB_SECRETS_PATH") "secrets.json")
    = Resolved (Some content) ->
  content <> EmptyString ->
  JSON_parse rt (base64_utf8 rt content) = Ok v ->
  truthy v = false ->
  exists s1,
    SecretsManager.initialize rt s = (Ok tt, s1) /\
    isInitialized (manager s1) = true /\
    forall s2, manager s2 = manager s1 ->
      SecretsManager.initialize rt s2 = (Ok tt, s2) /\
      getSecrets rt s2 =
        (Throw SecretsManager.not_initialized, with_trace s2 [EvGetSecrets]).
Proof.
  intros Hmode Hinit Hparams Hfetch Hne Hparse Hfalsy.
  eexists. split.
  { now apply (initialize_remote_stores_parse_result rt s content v). }
  split; [reflexivity|].
  intros s2 Hm. cbn [manager] in Hm.
  assert (Hi : isInitialized (manager s2) = true) by now rewrite Hm.
  split; [now apply initialize_ready|].
  rewrite getSecrets_initialized by exact Hi. rewrite Hm. cbn [secrets].
  now rewrite Hfalsy.
Qed.

Lemma falsy_document_is_permanent_witness :
  exists s1,
    SecretsManager.initialize Scenario.remote_null initial = (Ok tt, s1) /\
    isInitialized (manager s1) = true /\
    forall s2, manager s2 = manager s1 ->
      SecretsManager.initialize Scenario.remote_null s2 = (Ok tt, s2) /\
      getSecrets Scenario.remote_null s2 =
        (Throw SecretsManager.not_initialized, with_trace s2 [EvGetSecrets]).
Proof.
  apply (falsy_document_is_permanent Scenario.remote_null initial
           "bnVsbA==" JNull); try reflexivity.
  discriminate.
Defined.

Lemma missing_fields_nil_present (rt : Runtime) (field var : string) :
  missing_fields rt = [] ->
  In (field, var) field_variables ->
  absent (process_env rt var) = false.
Proof.
  unfold missing_fields, field_variables.
  cbn [List.filter List.map fst snd In].
  intros Hnil Hin.
  destruct (absent (process_env rt "DATABASE_URL")) eqn:H1; [discriminate|].
  destruct (absent (process_env rt "API_KEY")) eqn:H2; [discriminate|].
  destruct (absent (process_env rt "JWT_SECRET")) eqn:H3; [discriminate|].
  destruct (absent (process_env rt "REDIS_URL")) eqn:H4; [discriminate|].
  destruct (absent (process_env rt "STRIPE_SECRET_KEY")) eqn:H5; [discriminate|].
  destruct Hin as [[= <- <-]|[[= <- <-]|[[= <- <-]|[[= <- <-]|[[= <- <-]|[]]]]]];
    assumption.
Qed.

(** X5.  After a successful local-mode [initialize()], reading a field
    with [getSecret], through the manager or through the helper, gives
    back exactly the value of the environment variable the field is read
    from, and that value is not empty; the read changes nothing. *)
Theorem getSecret_returns_environment_value (rt : Runtime) (s s1 : State)
    (field var : string) :
  process_env rt "NODE_ENV" <> Some "production" ->
  isInitialized (manager s) = false ->
  SecretsManager.initialize rt s = (Ok tt, s1) ->
  In (field, var) field_variables ->
  exists value,
    process_env rt var = Some value /\
    value <> EmptyString /\
    SecretsManager.getSecret field s1 = (Ok (JStr value), s1) /\
    getSecret rt field s1 = (Ok (JStr value), s1).
Proof.
  intros Hmode Hinit. rewrite initialize_local by assumption.
  destruct (missing_fields rt) eqn:Hmiss; [|discriminate].
  intros [= <-] Hin.
  pose proof (missing_fields_nil_present rt field var Hmiss Hin) as Hpresent.
  destruct (process_env rt var) as [[|c value]|] eqn:Hvar; try discriminate.
  exists (String c value). split; [reflexivity|]. split; [discriminate|].
  assert (Hget : SecretsManager.getSecret field
                   {| manager := {| secrets := AppSecrets.object (env_record rt);
                                    isInitialized := true |};
                      console := console s;
                      trace := trace s ++ [EvReadEnv] |}
                 = (Ok (JStr (String c value)), 
                    {| manager := {| secrets := AppSecrets.object (env_record rt);
                                     isInitialized := true |};
                       console := console s;
                       trace := trace s ++ [EvReadEnv] |})).
  { unfold SecretsManager.getSecret, bind, this. cbn [manager secrets].
    cbn [AppSecrets.object truthy negb get_prop ret].
    unfold env_record.
    cbn [AppSecrets.databaseUrl AppSecrets.apiKey AppSecrets.jwtSecret
         AppSecrets.redisUrl AppSecrets.stripeSecretKey].
    cbn in Hin.
    destruct Hin as [[= <- <-]|[[= <- <-]|[[= <- <-]|[[= <- <-]|[[= <- <-]|[]]]]]];
      cbn [assoc String.eqb Ascii.eqb Bool.eqb]; rewrite Hvar; reflexivity. }
  split; [exact Hget|].
  unfold getSecret, SecretsManager.isReady, bind at 1 2, this, ret.
  cbn [manager isInitialized secrets AppSecrets.object andb negb].
  unfold bind. exact Hget.
Qed.

Lemma getSecret_returns_environment_value_witness :
  exists s1 value,
    SecretsManager.initialize Example.local_full initial = (Ok tt, s1) /\
    process_env Example.local_full "API_KEY" = Some value /\
    value <> EmptyString /\
    SecretsManager.getSecret "apiKey" s1 = (Ok (JStr value), s1) /\
    getSecret Example.local_full "apiKey" s1 = (Ok (JStr value), s1).
Proof.
  exists (snd (SecretsManager.initialize Example.local_full initial)).
  destruct (getSecret_returns_environment_value Example.local_full initial
              (snd (SecretsManager.initialize Example.local_full initial))
              "apiKey" "API_KEY") as [value H].
  - vm_compute. discriminate.
  - reflexivity.
  - vm_compute. reflexivity.
  - cbn. tauto.
  - exists value. split; [vm_compute; reflexivity|exact H].
Defined.

(** ** The gate in every state *)

(** [validateApiKey] always returns a result; a negative one carries the
    request as it came and one of the four rejections. *)
Lemma validateApiKey_total (rt : Runtime) (req : NextRequest)
    (s : State) :
  exists result s1,
    validateApiKey rt req s = (Ok result, s1) /\
    (isValid result = true -> response result = None) /\
    (isValid result = false ->
     request result = req /\
     exists resp,
       response result = Some resp /\
       (resp = api_key_required \/ resp = api_key_not_configured \/
        resp = invalid_api_key \/ resp = authentication_error) /\
       (NextResponse.status resp = 401 \/ NextResponse.status resp = 500)).
Proof.
  assert (Hrej : forall (resp : NextResponse.t) (s1 : State),
            (resp = api_key_required \/ resp = api_key_not_configured \/
             resp = invalid_api_key \/ resp = authentication_error) ->
            exists result s1',
              (Ok (rejected req resp), s1) = (Ok result, s1') /\
              (isValid result = true -> response result = None) /\
              (isValid result = false ->
               request result = req /\
               exists resp',
                 response result = Some resp' /\
                 (resp' = api_key_required \/ resp' = api_key_not_configured \/
                  resp' = invalid_api_key \/ resp' = authentication_error) /\
                 (NextResponse.status resp' = 401 \/
                  NextResponse.status resp' = 500))).
  { intros resp s1 Hresp. eexists _, _. split; [reflexivity|]. cbn.
    split; [discriminate|]. intros _. split; [reflexivity|].
    exists resp. split; [reflexivity|]. split; [exact Hresp|].
    destruct Hresp as [-> | [-> | [-> | ->]]]; cbn; tauto. }
  unfold validateApiKey.
  destruct (absent (providedApiKey _ _)); [apply Hrej; tauto|].
  unfold try_catch, bind.
  destruct (getSecrets rt s) as [[v|e] s1]; [|apply Hrej; tauto].
  destruct v as [| |b|n|t|items|fs]; cbn [get_prop ret throw];
    try (apply Hrej; tauto);
    cbn [truthy negb]; try (apply Hrej; tauto).
  destruct (truthy (assoc "apiKey" fs)); cbn [negb]; [|apply Hrej; tauto].
  destruct (strict_eq_str _ (assoc "apiKey" fs)); cbn [negb];
    [|apply Hrej; tauto].
  eexists _, _. split; [reflexivity|]. cbn. split; [reflexivity|discriminate].
Qed.

(** A positive result means the candidate is the stored apiKey. *)
Lemma validateApiKey_valid_inv (rt : Runtime) (req : NextRequest) (s s1 : State)
    (result : AuthResult) :
  validateApiKey rt req s = (Ok result, s1) ->
  isValid result = true ->
  exists key fs,
    key <> EmptyString /\
    providedApiKey
      (Headers.get (AuthenticatedRequest.headers req) "authorization")
      (Headers.get (AuthenticatedRequest.headers req) "x-api-key") = Some key /\
    secrets (manager s1) = JObj fs /\
    assoc "apiKey" fs = JStr key /\
    request result =
      {| AuthenticatedRequest.header_lines := AuthenticatedRequest.header_lines req;
         AuthenticatedRequest.json := AuthenticatedRequest.json req;
         AuthenticatedRequest.apiKey := Some key;
         AuthenticatedRequest.secrets := Some (JObj fs) |}.
Proof.
  unfold validateApiKey.
  destruct (providedApiKey _ _) as [[|c key]|] eqn:Hcand; cbn [absent];
    try (intros [= <- _]; discriminate).
  cbn [default from_option]. cbv [id].
  unfold try_catch, bind.
  destruct (getSecrets rt s) as [[v|e] s'] eqn:Hget;
    [|cbn; intros [= <- _]; discriminate].
  apply getSecrets_ok in Hget as [_ Hstored].
  destruct v as [| |b|n|t|items|fs]; cbn [get_prop ret throw truthy negb];
    try (cbn; intros [= <- _]; discriminate).
  destruct (assoc "apiKey" fs) as [| |b|n|configured|items|fs'] eqn:Hkey;
    cbn [truthy negb strict_eq_str];
    try (intros [= <- _]; discriminate);
    try (destruct b; intros [= <- _]; discriminate);
    try (destruct (negb (String.eqb n "0" || String.eqb n "NaN"));
         intros [= <- _]; discriminate).
  destruct (negb (Str.is_empty configured)); cbn [negb];
    [|intros [= <- _]; discriminate].
  destruct (String.eqb (String c key) configured) eqn:Heq; cbn [negb];
    [|intros [= <- _]; discriminate].
  apply String.eqb_eq in Heq. subst configured.
  intros [= <- <-] _.
  exists (String c key), fs.
  repeat split; first [discriminate | assumption | reflexivity].
Qed.

(** X6.  When the store cannot hand out its record (the load fails, or
    the stored value is unusable), a request that does carry a credential
    is answered with the one fixed 500 response, whatever the error is and
    whatever the mode: the error goes to the console only, and the wrapped
    handler is not run. *)
Theorem validateApiKey_store_failure (rt : Runtime) (req : NextRequest)
    (s s1 : State) (e : Exn) :
  absent (providedApiKey
            (Headers.get (AuthenticatedRequest.headers req) "authorization")
            (Headers.get (AuthenticatedRequest.headers req) "x-api-key")) = false ->
  getSecrets rt s = (Throw e, s1) ->
  validateApiKey rt req s =
    (Ok (rejected req authentication_error),
     with_console s1 [("Error validating API key:", e)]) /\
  forall handler,
    withApiKeyAuth rt handler req s =
      (Ok (Some authentication_error),
       with_console s1 [("Error validating API key:", e)]).
Proof.
  intros Hcand Hget.
  assert (Hrun : validateApiKey rt req s =
            (Ok (rejected req authentication_error),
             with_console s1 [("Error validating API key:", e)])).
  { unfold validateApiKey. rewrite Hcand. unfold try_catch, bind at 1.
    rewrite Hget. reflexivity. }
  split; [exact Hrun|].
  intros handler. unfold withApiKeyAuth, bind. rewrite Hrun. reflexivity.
Qed.

Lemma validateApiKey_store_failure_witness :
  exists s2,
    validateApiKey Example.local_partial (Scenario.bearer "K1" Example.no_body)
      initial
    = (Ok (rejected (Scenario.bearer "K1" Example.no_body) authentication_error),
       s2) /\
    isInitialized (manager s2) = false.
Proof.
  eexists. split.
  - apply (validateApiKey_store_failure Example.local_partial
             (Scenario.bearer "K1" Example.no_body) initial).
    + reflexivity.
    + vm_compute. reflexivity.
  - reflexivity.
Defined.

(** X7.  A ready store whose record has no usable apiKey (the field is
    missing, empty or otherwise falsy) rejects every request that carries a
    credential with 500 ServerMisconfigured, so no key at all is accepted,
    and the wrapped handler is not run. *)
Theorem validateApiKey_key_not_configured (rt : Runtime) (req : NextRequest)
    (s : State) (fs : list (string * JsValue)) :
  isInitialized (manager s) = true ->
  secrets (manager s) = JObj fs ->
  truthy (assoc "apiKey" fs) = false ->
  absent (providedApiKey
            (Headers.get (AuthenticatedRequest.headers req) "authorization")
            (Headers.get (AuthenticatedRequest.headers req) "x-api-key")) = false ->
  validateApiKey rt req s =
    (Ok (rejected req api_key_not_configured), with_trace s [EvGetSecrets]) /\
  forall handler,
    withApiKeyAuth rt handler req s =
      (Ok (Some api_key_not_configured), with_trace s [EvGetSecrets]).
Proof.
  intros Hinit Hsec Hfalsy Hcand.
  assert (Hrun : validateApiKey rt req s =
            (Ok (rejected req api_key_not_configured),
             with_trace s [EvGetSecrets])).
  { unfold validateApiKey. rewrite Hcand. unfold try_catch, bind.
    rewrite (getSecrets_ready rt s fs Hinit Hsec). cbn [get_prop ret].
    rewrite Hfalsy. reflexivity. }
  split; [exact Hrun|].
  intros handler. unfold withApiKeyAuth, bind. rewrite Hrun. reflexivity.
Qed.

Lemma validateApiKey_key_not_configured_witness :
  validateApiKey Example.remote_empty_object
    (Scenario.bearer "K1" Example.no_body) Scenario.unvalidated =
    (Ok (rejected (Scenario.bearer "K1" Example.no_body) api_key_not_configured),
     with_trace Scenario.unvalidated [EvGetSecrets]).
Proof.
  apply (validateApiKey_key_not_configured Example.remote_empty_object
           (Scenario.bearer "K1" Example.no_body) Scenario.unvalidated []);
    reflexivity.
Defined.

(** The two ways [validateApiKey] can end. *)
Lemma validateApiKey_cases (rt : Runtime) (req : NextRequest) (s : State) :
  (exists resp s1,
     validateApiKey rt req s = (Ok (rejected req resp), s1) /\
     (resp = api_key_required \/ resp = api_key_not_configured \/
      resp = invalid_api_key \/ resp = authentication_error) /\
     (NextResponse.status resp = 401 \/ NextResponse.status resp = 500)) \/
  (exists s1 key fs,
     key <> EmptyString /\
     providedApiKey
       (Headers.get (AuthenticatedRequest.headers req) "authorization")
       (Headers.get (AuthenticatedRequest.headers req) "x-api-key") = Some key /\
     secrets (manager s1) = JObj fs /\
     assoc "apiKey" fs = JStr key /\
     validateApiKey rt req s =
       (Ok {| isValid := true;
              request :=
                {| AuthenticatedRequest.header_lines :=
                     AuthenticatedRequest.header_lines req;
                   AuthenticatedRequest.json := AuthenticatedRequest.json req;
                   AuthenticatedRequest.apiKey := Some key;
                   AuthenticatedRequest.secrets := Some (JObj fs) |};
              response := None |}, s1)).
Proof.
  destruct (validateApiKey_total rt req s)
    as (result & s1 & Hrun & Hvalid & Hinvalid).
  destruct result as [valid context resp]. destruct valid.
  - right. cbn in Hvalid. rewrite (Hvalid eq_refl) in Hrun.
    destruct (validateApiKey_valid_inv rt req s s1 _ Hrun eq_refl)
      as (key & fs & Hne & Hcand & Hsec & Hkey & Hreq).
    cbn in Hreq. subst context. exists s1, key, fs.
    repeat split; assumption.
  - left. destruct (Hinvalid eq_refl) as (Hreq & resp' & Hresp & Hkind & Hstatus).
    cbn in Hreq, Hresp. subst context resp.
    exists resp', s1. repeat split; assumption.
Qed.

(** X8.  In every state of the store, also when the request itself is
    what triggers the load, the gate never throws and the wrapper built by
    [withApiKeyAuth] does one of two things.  Either it answers with one of
    the four rejections, of status 401 or 500, and the handler is not run.
    Or the credential taken from the headers is a non-empty string equal
    to the apiKey field of the object the store now holds, and the handler
    is run, once, on the incoming request with that credential and that
    stored object attached, its answer being the wrapper's answer.  A
    handler behind the gate can thus rely on [request.secrets]. *)
Theorem withApiKeyAuth_outcomes (rt : Runtime)
    (handler : AuthenticatedRequest.t -> M NextResponse.t)
    (req : NextRequest) (s : State) :
  (exists resp s1,
     validateApiKey rt req s = (Ok (rejected req resp), s1) /\
     withApiKeyAuth rt handler req s = (Ok (Some resp), s1) /\
     (resp = api_key_required \/ resp = api_key_not_configured \/
      resp = invalid_api_key \/ resp = authentication_error) /\
     (NextResponse.status resp = 401 \/ NextResponse.status resp = 500)) \/
  (exists s1 key fs,
     let context :=
       {| AuthenticatedRequest.header_lines := AuthenticatedRequest.header_lines req;
          AuthenticatedRequest.json := AuthenticatedRequest.json req;
          AuthenticatedRequest.apiKey := Some key;
          AuthenticatedRequest.secrets := Some (JObj fs) |} in
     key <> EmptyString /\
     providedApiKey
       (Headers.get (AuthenticatedRequest.headers req) "authorization")
       (Headers.get (AuthenticatedRequest.headers req) "x-api-key") = Some key /\
     secrets (manager s1) = JObj fs /\
     assoc "apiKey" fs = JStr key /\
     validateApiKey rt req s =
       (Ok {| isValid := true; request := context; response := None |}, s1) /\
     withApiKeyAuth rt handler req s =
       (let* r := handler context in ret (Some r)) s1).
Proof.
  destruct (validateApiKey_cases rt req s)
    as [(resp & s1 & Hrun & Hkind & Hstatus)
       |(s1 & key & fs & Hne & Hcand & Hsec & Hkey & Hrun)].
  - left. exists resp, s1. split; [exact Hrun|]. split; [|split; assumption].
    unfold withApiKeyAuth, bind. rewrite Hrun. reflexivity.
  - right. exists s1, key, fs. cbv zeta. repeat split; try assumption.
    unfold withApiKeyAuth, bind at 1. rewrite Hrun. reflexivity.
Qed.

(** ** The routes in every state *)

Lemma error_detail_production (rt : Runtime) (e : Exn) :
  process_env rt "NODE_ENV" <> Some "development" ->
  error_detail rt e = "Internal server error".
Proof.
  intros H. unfold error_detail. now rewrite bool_decide_eq_false_2.
Qed.

Lemma GET_ready (rt : Runtime) (req : NextRequest) (s : State)
    (fs : list (string * JsValue)) :
  isInitialized (manager s) = true ->
  secrets (manager s) = JObj fs ->
  GET rt req s =
    (Ok (NextResponse.json (status_body rt fs) 200), with_trace s [EvGetSecrets]).
Proof.
  intros Hinit Hsec. unfold GET, try_catch, bind.
  rewrite (getSecrets_ready rt s fs Hinit Hsec). reflexivity.
Qed.

(** X9.  The status route never throws: it answers 200, or 500 with the
    fixed failure message after logging the error.  Outside development
    mode the 500 body is one constant text, so nothing of the error, and
    with it nothing of the configuration, reaches the client. *)
Theorem GET_never_throws (rt : Runtime) (req : NextRequest) (s : State) :
  exists resp s1,
    GET rt req s = (Ok resp, s1) /\
    (NextResponse.status resp = 200 \/
     (NextResponse.status resp = 500 /\
      exists e s0,
        NextResponse.body resp =
          failure_body "Failed to access secrets" (error_detail rt e) /\
        s1 = with_console s0 [("Error in secrets API:", e)] /\
        (process_env rt "NODE_ENV" <> Some "development" ->
         NextResponse.body resp =
           failure_body "Failed to access secrets" "Internal server error"))).
Proof.
  assert (Hfail : forall (e : Exn) (s0 : State),
            exists resp s1,
              (Ok (NextResponse.json
                     (failure_body "Failed to access secrets" (error_detail rt e))
                     500),
               with_console s0 [("Error in secrets API:", e)]) = (Ok resp, s1) /\
              (NextResponse.status resp = 200 \/
               (NextResponse.status resp = 500 /\
                exists e' s0',
                  NextResponse.body resp =
                    failure_body "Failed to access secrets" (error_detail rt e') /\
                  s1 = with_console s0' [("Error in secrets API:", e')] /\
                  (process_env rt "NODE_ENV" <> Some "development" ->
                   NextResponse.body resp =
                     failure_body "Failed to access secrets"
                       "Internal server error")))).
  { intros e s0. eexists _, _. split; [reflexivity|]. right.
    split; [reflexivity|]. exists e, s0. split; [reflexivity|].
    split; [reflexivity|]. intros Hmode. cbn.
    now rewrite error_detail_production. }
  unfold GET, try_catch, bind.
  destruct (getSecrets rt s) as [[v|e] s0]; [|apply Hfail].
  destruct v as [| |b|n|t|items|fs]; cbn [get_prop ret throw];
    try apply Hfail;
    (eexists _, _; split; [reflexivity|]; left; reflexivity).
Qed.

(** X10.  On a ready store the status response shows, of the stored
    values, only which of the five fields are truthy: two stores that
    agree on that get the same response, whatever the values are and
    whatever the two requests are. *)
Theorem GET_reveals_truthiness_only (rt : Runtime) (req req' : NextRequest)
    (s s' : State) (fs fs' : list (string * JsValue)) :
  isInitialized (manager s) = true ->
  secrets (manager s) = JObj fs ->
  isInitialized (manager s') = true ->
  secrets (manager s') = JObj fs' ->
  same_truthiness fs fs' ->
  fst (GET rt req s) = Ok (NextResponse.json (status_body rt fs) 200) /\
  fst (GET rt req s) = fst (GET rt req' s').
Proof.
  intros Hinit Hsec Hinit' Hsec' Hsame.
  rewrite (GET_ready rt req s fs Hinit Hsec).
  rewrite (GET_ready rt req' s' fs' Hinit' Hsec').
  split; [reflexivity|]. cbn [fst]. unfold status_body, indicator.
  rewrite !(Hsame _) by (cbn; tauto). reflexivity.
Qed.

Lemma GET_reveals_truthiness_only_witness :
  fst (GET Example.local_full (Example.request [] Example.no_body)
         (Example.ready Example.record)) =
  fst (GET Example.local_full (Scenario.bearer "K1" Example.no_body)
         (Example.ready (env_record Example.local_year))).
Proof.
  refine (proj2 (GET_reveals_truthiness_only Example.local_full
                   (Example.request [] Example.no_body)
                   (Scenario.bearer "K1" Example.no_body)
                   (Example.ready Example.record)
                   (Example.ready (env_record Example.local_year))
                   _ _ eq_refl eq_refl eq_refl eq_refl _)).
  intros k Hk. cbn in Hk.
  destruct Hk as [<- | [<- | [<- | [<- | [<- | []]]]]]; reflexivity.
Defined.

(** X11.  In local mode, as long as some field is unset or empty, every
    status request fails with 500 and reads the environment anew: the
    store stays not ready, so the next request repeats the load.  The
    error detail is the list of missing field names in development mode
    and the constant text otherwise. *)
Theorem GET_local_missing_fields (rt : Runtime) (req : NextRequest) (s : State) :
  process_env rt "NODE_ENV" <> Some "production" ->
  isInitialized (manager s) = false ->
  missing_fields rt <> [] ->
  exists s1,
    GET rt req s =
      (Ok (NextResponse.json
             (failure_body "Failed to access secrets"
                (error_detail rt (Error (missing_message (missing_fields rt)))))
             500), s1) /\
    isInitialized (manager s1) = false /\
    loads (trace s1) = S (loads (trace s)) /\
    console s1 =
      console s ++ [("Error in secrets API:",
                     Error (missing_message (missing_fields rt)))].
Proof.
  intros Hmode Hinit Hmiss.
  unfold GET, try_catch, bind at 1.
  rewrite getSecrets_fresh by exact Hinit.
  rewrite initialize_local by assumption.
  destruct (missing_fields rt) as [|n ns]; [congruence|].
  eexists. split; [reflexivity|].
  unfold console_error, loaded_from_env, with_trace. cbn [snd fst].
  cbn [manager console trace isInitialized].
  split; [exact Hinit|]. split; [|reflexivity].
  rewrite !loads_app. cbn. lia.
Qed.

Lemma GET_local_missing_fields_witness :
  exists s1,
    GET Example.local_partial (Example.request [] Example.no_body) initial =
      (Ok (NextResponse.json
             (failure_body "Failed to access secrets" "Internal server error")
             500), s1) /\
    isInitialized (manager s1) = false /\
    loads (trace s1) = S (loads (trace initial)) /\
    console s1 =
      console initial ++
        [("Error in secrets API:",
          Error (missing_message (missing_fields Example.local_partial)))].
Proof.
  apply (GET_local_missing_fields Example.local_partial
           (Example.request [] Example.no_body) initial).
  - vm_compute. discriminate.
  - reflexivity.
  - vm_compute. discriminate.
Defined.

Lemma strict_eq_str_false (k : string) (v : JsValue) :
  v <> JStr k -> strict_eq_str k v = false.
Proof.
  intros H. destruct v; try reflexivity. cbn.
  apply String.eqb_neq. congruence.
Qed.

(** X12.  The database action answers 200 and tells, of the stored
    database URL, only whether the text postgresql occurs in it (in lower
    case, anywhere): the database type reads PostgreSQL if it does and
    Unknown if it does not. *)
Theorem POST_database_type (rt : Runtime) (req : NextRequest) (s : State)
    (fs fields : list (string * JsValue)) (url : string) :
  isInitialized (manager s) = true ->
  secrets (manager s) = JObj fs ->
  assoc "databaseUrl" fs = JStr url ->
  AuthenticatedRequest.json req = Ok (JObj fields) ->
  assoc "action" fields = JStr "database" ->
  POST rt req s =
    (Ok (NextResponse.json
           (JObj [ ("status", JStr "success");
                   ("message", JStr "Database connection configured");
                   ("databaseType",
                     JStr (if Str.includes "postgresql" url
                           then "PostgreSQL" else "Unknown")) ]) 200),
     with_trace s [EvGetSecrets]).
Proof.
  intros Hinit Hsec Hurl Hjson Haction.
  unfold POST, try_catch, bind. rewrite Hjson. cbn [destructure ret].
  rewrite Haction, (getSecrets_ready rt s fs Hinit Hsec).
  cbn [strict_eq_str String.eqb Ascii.eqb Bool.eqb get_prop ret].
  rewrite Hurl. reflexivity.
Qed.

Lemma POST_database_type_witness :
  POST Example.local_full (Example.request [] (Scenario.action "database"))
       (Example.ready Example.record) =
    (Ok (NextResponse.json
           (JObj [ ("status", JStr "success");
                   ("message", JStr "Database connection configured");
                   ("databaseType", JStr "PostgreSQL") ]) 200),
     with_trace (Example.ready Example.record) [EvGetSecrets]).
Proof.
  apply (POST_database_type Example.local_full
           (Example.request [] (Scenario.action "database"))
           (Example.ready Example.record)
           (Object_entries (AppSecrets.object Example.record))
           [ ("action", JStr "database") ]
           "postgresql://localhost/app"); reflexivity.
Defined.

(** X13.  With a ready store, a request body that is an object whose
    action is neither of the two known strings (also when it is missing or
    not a string) is answered 400 Invalid action; the record has been
    fetched from the store before the action is looked at. *)
Theorem POST_unknown_action (rt : Runtime) (req : NextRequest) (s : State)
    (fs fields : list (string * JsValue)) :
  isInitialized (manager s) = true ->
  secrets (manager s) = JObj fs ->
  AuthenticatedRequest.json req = Ok (JObj fields) ->
  assoc "action" fields <> JStr "authenticate" ->
  assoc "action" fields <> JStr "database" ->
  POST rt req s =
    (Ok (NextResponse.json (error_body "Invalid action") 400),
     with_trace s [EvGetSecrets]).
Proof.
  intros Hinit Hsec Hjson Ha Hd.
  unfold POST, try_catch, bind. rewrite Hjson. cbn [destructure ret].
  rewrite (getSecrets_ready rt s fs Hinit Hsec).
  rewrite (strict_eq_str_false _ _ Ha), (strict_eq_str_false _ _ Hd).
  reflexivity.
Qed.

Lemma POST_unknown_action_witness :
  POST Example.local_full (Example.request [] (Scenario.action "Authenticate"))
       (Example.ready Example.record) =
    (Ok (NextResponse.json (error_body "Invalid action") 400),
     with_trace (Example.ready Example.record) [EvGetSecrets]).
Proof.
  apply (POST_unknown_action Example.local_full
           (Example.request [] (Scenario.action "Authenticate"))
           (Example.ready Example.record)
           (Object_entries (AppSecrets.object Example.record))
           [ ("action", JStr "Authenticate") ]);
    try reflexivity; discriminate.
Defined.

(** X14.  The POST route never throws: it answers 200, 400 or 500, and
    outside development mode every 500 body is the one constant text. *)
Theorem POST_never_throws (rt : Runtime) (req : NextRequest) (s : State) :
  exists resp s1,
    POST rt req s = (Ok resp, s1) /\
    (NextResponse.status resp = 200 \/ NextResponse.status resp = 400 \/
     NextResponse.status resp = 500) /\
    (NextResponse.status resp = 500 ->
     process_env rt "NODE_ENV" <> Some "development" ->
     NextResponse.body resp =
       failure_body "Failed to process request" "Internal server error").
Proof.
  assert (Hfail : forall (e : Exn) (s0 : State),
            exists resp s1,
              (Ok (NextResponse.json
                     (failure_body "Failed to process request" (error_detail rt e))
                     500),
               with_console s0 [("Error in secrets POST API:", e)]) = (Ok resp, s1) /\
              (NextResponse.status resp = 200 \/ NextResponse.status resp = 400 \/
               NextResponse.status resp = 500) /\
              (NextResponse.status resp = 500 ->
               process_env rt "NODE_ENV" <> Some "development" ->
               NextResponse.body resp =
                 failure_body "Failed to process request" "Internal server error")).
  { intros e s0. eexists _, _. split; [reflexivity|]. split; [cbn; tauto|].
    intros _ Hmode. cbn. now rewrite error_detail_production. }
  assert (Hok : forall (body : JsValue) (code : nat) (s0 : State),
            code = 200 \/ code = 400 ->
            exists resp s1,
              (Ok (NextResponse.json body code), s0) = (Ok resp, s1) /\
              (NextResponse.status resp = 200 \/ NextResponse.status resp = 400 \/
               NextResponse.status resp = 500) /\
              (NextResponse.status resp = 500 ->
               process_env rt "NODE_ENV" <> Some "development" ->
               NextResponse.body resp =
                 failure_body "Failed to process request" "Internal server error")).
  { intros body code s0 Hcode. eexists _, _. split; [reflexivity|]. cbn.
    split; [tauto|]. intros ->. destruct Hcode; discriminate. }
  unfold POST, try_catch, bind.
  destruct (AuthenticatedRequest.json req) as [parsed|e]; [|apply Hfail].
  destruct (destructure parsed "action" s) as [[action|e] s0] eqn:Hact;
    [|apply Hfail].
  destruct (getSecrets rt s0) as [[v|e] s1]; [|apply Hfail].
  destruct (strict_eq_str "authenticate" action).
  { destruct (get_prop v "jwtSecret" s1) as [[jwt|e] s2]; [|apply Hfail].
    destruct (call_substring "secrets.jwtSecret" jwt 8 s2) as [[t|e] s3];
      [|apply Hfail].
    apply Hok. tauto. }
  destruct (strict_eq_str "database" action).
  { destruct (get_prop v "databaseUrl" s1) as [[url|e] s2]; [|apply Hfail].
    destruct (call_includes "secrets.databaseUrl" url "postgresql" s2)
      as [[t|e] s3]; [|apply Hfail].
    apply Hok. tauto. }
  apply Hok. tauto.
Qed.

(** X15.  A request whose body cannot be taken apart (it does not parse,
    or it parses to null) is answered 500 before the store is consulted:
    the helper [getSecrets()] is not called, nothing is loaded even if the
    store is not ready, and only the console grows.  For a body that is
    null the error is the TypeError of the destructuring. *)
Theorem POST_bad_body_leaves_store (rt : Runtime) (req : NextRequest)
    (s : State) (e : Exn) :
  AuthenticatedRequest.json req = Throw e \/
  (AuthenticatedRequest.json req = Ok JNull /\
   e = TypeError ("Cannot destructure property 'action' of " +:+
                  "'(intermediate value)' as it is null.")) ->
  POST rt req s =
    (Ok (NextResponse.json
           (failure_body "Failed to process request" (error_detail rt e)) 500),
     with_console s [("Error in secrets POST API:", e)]).
Proof.
  intros [Hjson | [Hjson ->]]; unfold POST, try_catch, bind; rewrite Hjson;
    reflexivity.
Qed.

Lemma POST_bad_body_leaves_store_witness :
  POST Example.local_full (Example.request [] Example.no_body) initial =
    (Ok (NextResponse.json
           (failure_body "Failed to process request"
              "Unexpected end of JSON input") 500),
     with_console initial
       [("Error in secrets POST API:",
         SyntaxError "Unexpected end of JSON input")]).
Proof.
  apply (POST_bad_body_leaves_store Example.local_full
           (Example.request [] Example.no_body) initial
           (SyntaxError "Unexpected end of JSON input")).
  left. reflexivity.
Defined.

(** ** The init route and the middleware *)

Lemma isReady_run (s : State) :
  SecretsManager.isReady s =
    (Ok (isInitialized (manager s) && not_null (secrets (manager s))), s).
Proof.
  unfold SecretsManager.isReady, bind, this, ret.
  destruct (secrets (manager s)); reflexivity.
Qed.

(** X16.  The init POST never throws and its status tells whether the
    store is initialised afterwards: 200 with the ready flag set, the body
    reporting as secretsReady whether the stored value is not null; or 500
    with the ready flag not set. *)
Theorem init_POST_outcomes (rt : Runtime) (s : State) :
  exists resp s1,
    InitRoute.POST rt s = (Ok resp, s1) /\
    ((NextResponse.status resp = 200 /\
      isInitialized (manager s1) = true /\
      NextResponse.body resp =
        init_body rt "Application initialized successfully"
          (not_null (secrets (manager s1)))) \/
     (NextResponse.status resp = 500 /\
      isInitialized (manager s1) = false)).
Proof.
  unfold InitRoute.POST, try_catch, bind, console_log, ret.
  rewrite isReady_run.
  destruct (isInitialized (manager s) && not_null (secrets (manager s))) eqn:Hr;
    cbn [negb].
  - rewrite isReady_run, Hr. apply andb_true_iff in Hr as [Hi Hn].
    eexists _, _. split; [reflexivity|]. left. cbn.
    rewrite Hn. auto.
  - destruct (SecretsManager.initialize rt s) as [[[]|e] s1] eqn:E.
    + rewrite isReady_run. eexists _, _. split; [reflexivity|]. left. cbn.
      destruct (initialize_idempotent rt s s1 E) as [Hi _].
      rewrite Hi. auto.
    + eexists _, _. split; [reflexivity|]. right. cbn. split; [reflexivity|].
      exact (initialize_throw_flag rt s s1 e E).
Qed.

(** X17.  The readiness the init route reports and the usability of the
    store can part: when the remote file parses to a falsy value other
    than null (false, 0, the empty string), initialisation succeeds, the
    health check answers secretsReady true, and yet the status route
    answers 500, because [isReady()] tests for null while [getSecrets()]
    tests for truthiness. *)
Theorem ready_but_unusable (rt : Runtime) (req : NextRequest) (s : State)
    (content : string) (v : JsValue) :
  process_env rt "NODE_ENV" = Some "production" ->
  isInitialized (manager s) = false ->
  parameter_missing rt = false ->
  getContent rt (default EmptyString (process_env rt "GITHUB_TOKEN"))
    (default EmptyString (process_env rt "GITHUB_REPO_OWNER"))
    (default EmptyString (process_env rt "GITHUB_REPO_NAME"))
    (or_else (process_env rt "GITHUB_SECRETS_PATH") "secrets.json")
    = Resolved (Some content) ->
  content <> EmptyString ->
  JSON_parse rt (base64_utf8 rt content) = Ok v ->
  truthy v = false ->
  v <> JNull ->
  exists s1,
    SecretsManager.initialize rt s = (Ok tt, s1) /\
    InitRoute.GET rt s1 =
      (Ok (NextResponse.json
             (init_body rt "Application health check" true) 200), s1) /\
    exists resp s2,
      GET rt req s1 = (Ok resp, s2) /\ NextResponse.status resp = 500.
Proof.
  intros Hmode Hinit Hparams Hfetch Hne Hparse Hfalsy Hnull.
  eexists. split.
  { now apply (initialize_remote_stores_parse_result rt s content v). }
  split.
  - unfold InitRoute.GET, try_catch, bind. rewrite isReady_run.
    cbn [manager isInitialized secrets andb].
    destruct v; try reflexivity. congruence.
  - unfold GET, try_catch, bind at 1.
    rewrite getSecrets_initialized by reflexivity.
    cbn [manager secrets]. rewrite Hfalsy.
    eexists _, _. split; reflexivity.
Qed.

Lemma ready_but_unusable_witness :
  exists s1,
    SecretsManager.initialize Scenario.remote_zero initial = (Ok tt, s1) /\
    InitRoute.GET Scenario.remote_zero s1 =
      (Ok (NextResponse.json
             (init_body Scenario.remote_zero "Application health check" true)
             200), s1) /\
    exists resp s2,
      GET Scenario.remote_zero (Example.request [] Example.no_body) s1
        = (Ok resp, s2) /\ NextResponse.status resp = 500.
Proof.
  apply (ready_but_unusable Scenario.remote_zero
           (Example.request [] Example.no_body) initial "MA==" (JNum "0"));
    try reflexivity; discriminate.
Defined.

(** X18.  In local mode with all five fields set and a store that is not
    ready: the health check reports secretsReady false and leaves the
    state alone; the init POST loads once and reports secretsReady true;
    after it the health check reports true, and a second init POST answers
    the same without loading again or changing the state. *)
Theorem init_flow_local (rt : Runtime) (s : State) :
  process_env rt "NODE_ENV" <> Some "production" ->
  isInitialized (manager s) = false ->
  missing_fields rt = [] ->
  exists s1,
    InitRoute.GET rt s =
      (Ok (NextResponse.json
             (init_body rt "Application health check" false) 200), s) /\
    InitRoute.POST rt s =
      (Ok (NextResponse.json
             (init_body rt "Application initialized successfully" true) 200),
       s1) /\
    loads (trace s1) = S (loads (trace s)) /\
    InitRoute.GET rt s1 =
      (Ok (NextResponse.json
             (init_body rt "Application health check" true) 200), s1) /\
    InitRoute.POST rt s1 =
      (Ok (NextResponse.json
             (init_body rt "Application initialized successfully" true) 200),
       s1).
Proof.
  intros Hmode Hinit Hmiss.
  eexists. split; [|split; [|split; [|split]]].
  - unfold InitRoute.GET, try_catch, bind. rewrite isReady_run, Hinit.
    reflexivity.
  - unfold InitRoute.POST, try_catch, bind, console_log, ret.
    rewrite isReady_run, Hinit. cbn [andb negb].
    rewrite initialize_local, Hmiss by assumption.
    rewrite isReady_run. reflexivity.
  - cbn [trace]. rewrite loads_app. cbn. lia.
  - unfold InitRoute.GET, try_catch, bind. rewrite isReady_run. reflexivity.
  - unfold InitRoute.POST, try_catch, bind, console_log, ret.
    rewrite isReady_run. cbn [manager isInitialized secrets AppSecrets.object
                                not_null andb negb].
    rewrite isReady_run. reflexivity.
Qed.

Lemma init_flow_local_witness :
  exists s1,
    InitRoute.GET Example.local_full initial =
      (Ok (NextResponse.json
             (init_body Example.local_full "Application health check" false)
             200), initial) /\
    InitRoute.POST Example.local_full initial =
      (Ok (NextResponse.json
             (init_body Example.local_full
                "Application initialized successfully" true) 200), s1) /\
    loads (trace s1) = S (loads (trace initial)) /\
    InitRoute.GET Example.local_full s1 =
      (Ok (NextResponse.json
             (init_body Example.local_full "Application health check" true)
             200), s1) /\
    InitRoute.POST Example.local_full s1 =
      (Ok (NextResponse.json
             (init_body Example.local_full
                "Application initialized successfully" true) 200), s1).
Proof.
  apply (init_flow_local Example.local_full initial).
  - vm_compute. discriminate.
  - reflexivity.
  - vm_compute. reflexivity.
Defined.

(** A successful [initialize()] writes nothing to the console. *)
Lemma initialize_ok_console (rt : Runtime) (s s1 : State) :
  SecretsManager.initialize rt s = (Ok tt, s1) -> console s1 = console s.
Proof.
  destruct (isInitialized (manager s)) eqn:Hinit.
  { rewrite initialize_ready by exact Hinit. now intros [= <-]. }
  destruct (decide (process_env rt "NODE_ENV" = Some "production"))
    as [Hmode|Hmode].
  - rewrite initialize_remote, loadFromGitHub_run by assumption.
    destruct (parameter_missing rt); [discriminate|]. cbv zeta.
    destruct (getContent rt _ _ _ _) as [e|content]; [discriminate|].
    destruct (absent content); [discriminate|].
    destruct (JSON_parse rt _); [|discriminate]. now intros [= <-].
  - rewrite initialize_local by assumption.
    destruct (missing_fields rt); [|discriminate]. now intros [= <-].
Qed.

(** X19.  Both versions of the middleware never throw and always answer
    [NextResponse.next()]: they leave the store and the trace exactly as
    one call of [initialize()] would, and a failure of that call is
    swallowed, its error going to the console only. *)
Theorem middleware_swallows_failure (rt : Runtime) (s : State) :
  exists s1 s2,
    Middleware.middleware rt s = (Ok Middleware.NextResponse_next, s1) /\
    Middleware.middleware_fallback rt s = (Ok Middleware.NextResponse_next, s2) /\
    manager s1 = manager (snd (SecretsManager.initialize rt s)) /\
    trace s1 = trace (snd (SecretsManager.initialize rt s)) /\
    manager s2 = manager s1 /\
    trace s2 = trace s1 /\
    match fst (SecretsManager.initialize rt s) with
    | Ok _ => console s1 = console s /\ console s2 = console s
    | Throw e =>
        console s1 =
          console (snd (SecretsManager.initialize rt s)) ++
            [("❌ Failed to initialize secrets:", e)] /\
        console s2 =
          console (snd (SecretsManager.initialize rt s)) ++
            [("❌ Failed to initialize secrets in middleware:", e)]
    end.
Proof.
  unfold Middleware.middleware, Middleware.middleware_fallback,
    try_catch, bind, console_log, ret.
  rewrite isReady_run.
  destruct (isInitialized (manager s)) eqn:Hinit.
  - rewrite initialize_ready by exact Hinit. cbn [andb fst snd].
    destruct (not_null (secrets (manager s))); cbn [negb].
    + eexists _, _. repeat split; reflexivity.
    + rewrite initialize_ready by exact Hinit.
      eexists _, _. repeat split; reflexivity.
  - cbn [andb negb].
    destruct (SecretsManager.initialize rt s) as [[[]|e] s1] eqn:E;
      cbn [fst snd].
    + apply initialize_ok_console in E.
      eexists _, _. repeat split; try reflexivity; exact E.
    + eexists _, _. repeat split; reflexivity.
Qed.

(** ** The record once the store is initialised *)

Create HintDb stable.

Lemma stable_ret (m0 : SecretsManager) {A} (a : A) : stable m0 (ret a).
Proof. intros s H. exact H. Qed.

Lemma stable_throw (m0 : SecretsManager) {A} (e : Exn) :
  stable m0 (@throw A e).
Proof. intros s H. exact H. Qed.

Lemma stable_bind (m0 : SecretsManager) {A B} (m : M A) (k : A -> M B) :
  stable m0 m -> (forall a, stable m0 (k a)) -> stable m0 (bind m k).
Proof.
  intros Hm Hk s H. unfold bind. specialize (Hm s H).
  destruct (m s) as [[a|e] s1]; cbn in *; [now apply Hk|exact Hm].
Qed.

Lemma stable_try_catch (m0 : SecretsManager) {A} (m : M A) (h : Exn -> M A) :
  stable m0 m -> (forall e, stable m0 (h e)) -> stable m0 (try_catch m h).
Proof.
  intros Hm Hh s H. unfold try_catch. specialize (Hm s H).
  destruct (m s) as [[a|e] s1]; cbn in *; [exact Hm|now apply Hh].
Qed.

Lemma stable_emit (m0 : SecretsManager) (ev : Event) : stable m0 (emit ev).
Proof. intros s H. exact H. Qed.

Lemma stable_console_error (m0 : SecretsManager) (label : string) (e : Exn) :
  stable m0 (console_error label e).
Proof. intros s H. exact H. Qed.

Lemma stable_console_log (m0 : SecretsManager) (line : string) :
  stable m0 (console_log line).
Proof. intros s H. exact H. Qed.

Lemma stable_this (m0 : SecretsManager) : stable m0 this.
Proof. intros s H. exact H. Qed.

Lemma stable_request_json (m0 : SecretsManager) (req : NextRequest) :
  stable m0 (request_json req).
Proof. intros s H. exact H. Qed.

Lemma stable_get_prop (m0 : SecretsManager) (v : JsValue) (k : string) :
  stable m0 (get_prop v k).
Proof. intros s H. destruct v; exact H. Qed.

Lemma stable_destructure (m0 : SecretsManager) (v : JsValue) (k : string) :
  stable m0 (destructure v k).
Proof. intros s H. destruct v; exact H. Qed.

Lemma stable_call_substring (m0 : SecretsManager) (expr : string) (v : JsValue)
    (n : nat) :
  stable m0 (call_substring expr v n).
Proof. intros s H. destruct v; exact H. Qed.

Lemma stable_call_includes (m0 : SecretsManager) (expr : string) (v : JsValue)
    (needle : string) :
  stable m0 (call_includes expr v needle).
Proof. intros s H. destruct v; exact H. Qed.

Lemma stable_initialize (rt : Runtime) (m0 : SecretsManager) :
  isInitialized m0 = true -> stable m0 (SecretsManager.initialize rt).
Proof.
  intros Hinit s H. rewrite initialize_ready; [exact H|]. now rewrite H.
Qed.

#[local] Hint Resolve stable_ret stable_throw stable_emit stable_console_error
  stable_console_log stable_this stable_request_json stable_get_prop
  stable_destructure stable_call_substring stable_call_includes
  stable_initialize : stable.

Ltac stable_step :=
  match goal with
  | |- stable _ (bind _ _) => apply stable_bind; [|intros ?]
  | |- stable _ (try_catch _ _) => apply stable_try_catch; [|intros ?]
  | |- stable _ (if ?b then _ else _) => destruct b
  | |- stable _ (match ?x with _ => _ end) => destruct x
  | |- stable _ (fun s => (AuthenticatedRequest.json ?r, s)) =>
      apply (stable_request_json _ r)
  end.

Ltac stable_auto := repeat stable_step; auto with stable.

Lemma stable_isReady (m0 : SecretsManager) : stable m0 SecretsManager.isReady.
Proof. unfold SecretsManager.isReady. stable_auto. Qed.

Lemma stable_manager_getSecrets (m0 : SecretsManager) :
  stable m0 SecretsManager.getSecrets.
Proof. unfold SecretsManager.getSecrets. stable_auto. Qed.

Lemma stable_manager_getSecret (m0 : SecretsManager) (key : string) :
  stable m0 (SecretsManager.getSecret key).
Proof. unfold SecretsManager.getSecret. stable_auto. Qed.

#[local] Hint Resolve stable_isReady stable_manager_getSecrets
  stable_manager_getSecret : stable.

Lemma stable_getSecrets (rt : Runtime) (m0 : SecretsManager) :
  isInitialized m0 = true -> stable m0 (getSecrets rt).
Proof. intros H. unfold getSecrets. stable_auto. Qed.

Lemma stable_getSecret (rt : Runtime) (m0 : SecretsManager) (key : string) :
  isInitialized m0 = true -> stable m0 (getSecret rt key).
Proof. intros H. unfold getSecret. stable_auto. Qed.

#[local] Hint Resolve stable_getSecrets stable_getSecret : stable.

Lemma stable_validateApiKey (rt : Runtime) (m0 : SecretsManager)
    (req : NextRequest) :
  isInitialized m0 = true -> stable m0 (validateApiKey rt req).
Proof. intros H. unfold validateApiKey. stable_auto. Qed.

Lemma stable_withApiKeyAuth (rt : Runtime) (m0 : SecretsManager)
    (handler : AuthenticatedRequest.t -> M NextResponse.t) (req : NextRequest) :
  isInitialized m0 = true ->
  (forall context, stable m0 (handler context)) ->
  stable m0 (withApiKeyAuth rt handler req).
Proof.
  intros H Hh. unfold withApiKeyAuth.
  apply stable_bind; [now apply stable_validateApiKey|]. intros result.
  stable_auto.
Qed.

Lemma stable_GET (rt : Runtime) (m0 : SecretsManager) (req : NextRequest) :
  isInitialized m0 = true -> stable m0 (GET rt req).
Proof. intros H. unfold GET. stable_auto. Qed.

Lemma stable_POST (rt : Runtime) (m0 : SecretsManager) (req : NextRequest) :
  isInitialized m0 = true -> stable m0 (POST rt req).
Proof. intros H. unfold POST. stable_auto. Qed.

Lemma stable_init_POST (rt : Runtime) (m0 : SecretsManager) :
  isInitialized m0 = true -> stable m0 (InitRoute.POST rt).
Proof. intros H. unfold InitRoute.POST. stable_auto. Qed.

Lemma stable_init_GET (rt : Runtime) (m0 : SecretsManager) :
  stable m0 (InitRoute.GET rt).
Proof. unfold InitRoute.GET. stable_auto. Qed.

Lemma stable_middleware (rt : Runtime) (m0 : SecretsManager) :
  isInitialized m0 = true ->
  stable m0 (Middleware.middleware rt) /\
  stable m0 (Middleware.middleware_fallback rt).
Proof.
  intros H. unfold Middleware.middleware, Middleware.middleware_fallback.
  split; stable_auto.
Qed.

Lemma stable_handleSecureRequest (rt : Runtime) (random36 : string)
    (m0 : SecretsManager) (context : AuthenticatedRequest.t) :
  stable m0 (SecureRoute.handleSecureRequest rt random36 context).
Proof. unfold SecureRoute.handleSecureRequest. stable_auto. Qed.

Lemma stable_handleHealthCheck (rt : Runtime) (m0 : SecretsManager)
    (context : AuthenticatedRequest.t) :
  stable m0 (SecureRoute.handleHealthCheck rt context).
Proof. unfold SecureRoute.handleHealthCheck. stable_auto. Qed.

(** X20.  Once the ready flag is set, the stored record is never replaced
    and the flag never goes back: every entry point of the application (the
    manager's [initialize], the helpers [getSecrets] and [getSecret], the
    gate and both secure routes behind it, the status and POST routes, the
    init routes and both middlewares) leaves the manager exactly as it
    found it. *)
Theorem record_fixed_once_initialized (rt : Runtime) (random36 : string)
    (req : NextRequest) (key : string) (s : State) :
  isInitialized (manager s) = true ->
  manager (snd (SecretsManager.initialize rt s)) = manager s /\
  manager (snd (getSecrets rt s)) = manager s /\
  manager (snd (getSecret rt key s)) = manager s /\
  manager (snd (validateApiKey rt req s)) = manager s /\
  manager (snd (SecureRoute.POST rt random36 req s)) = manager s /\
  manager (snd (SecureRoute.GET rt req s)) = manager s /\
  manager (snd (GET rt req s)) = manager s /\
  manager (snd (POST rt req s)) = manager s /\
  manager (snd (InitRoute.POST rt s)) = manager s /\
  manager (snd (InitRoute.GET rt s)) = manager s /\
  manager (snd (Middleware.middleware rt s)) = manager s /\
  manager (snd (Middleware.middleware_fallback rt s)) = manager s.
Proof.
  intros Hinit.
  destruct (stable_middleware rt (manager s) Hinit) as [Hm1 Hm2].
  repeat match goal with |- _ /\ _ => split end.
  - now apply stable_initialize.
  - now apply stable_getSecrets.
  - now apply stable_getSecret.
  - now apply stable_validateApiKey.
  - apply stable_withApiKeyAuth; [exact Hinit| |reflexivity].
    intros context. apply stable_handleSecureRequest.
  - apply stable_withApiKeyAuth; [exact Hinit| |reflexivity].
    intros context. apply stable_handleHealthCheck.
  - now apply stable_GET.
  - now apply stable_POST.
  - now apply stable_init_POST.
  - now apply stable_init_GET.
  - now apply Hm1.
  - now apply Hm2.
Qed.

Lemma record_fixed_once_initialized_witness :
  let s := Example.ready Example.record in
  let req := Scenario.bearer "K1" (Scenario.action "authenticate") in
  manager (snd (SecretsManager.initialize Example.local_partial s)) = manager s /\
  manager (snd (getSecrets Example.local_partial s)) = manager s /\
  manager (snd (getSecret Example.local_partial "apiKey" s)) = manager s /\
  manager (snd (validateApiKey Example.local_partial req s)) = manager s /\
  manager (snd (SecureRoute.POST Example.local_partial "0.4fzyo82mvyr" req s))
    = manager s /\
  manager (snd (SecureRoute.GET Example.local_partial req s)) = manager s /\
  manager (snd (GET Example.local_partial req s)) = manager s /\
  manager (snd (POST Example.local_partial req s)) = manager s /\
  manager (snd (InitRoute.POST Example.local_partial s)) = manager s /\
  manager (snd (InitRoute.GET Example.local_partial s)) = manager s /\
  manager (snd (Middleware.middleware Example.local_partial s)) = manager s /\
  manager (snd (Middleware.middleware_fallback Example.local_partial s))
    = manager s.
Proof.
  intros s req.
  apply (record_fixed_once_initialized Example.local_partial "0.4fzyo82mvyr"
           req "apiKey" s).
  reflexivity.
Defined.

(** ** The secure routes *)

Lemma handleHealthCheck_run (rt : Runtime) (context : AuthenticatedRequest.t)
    (s : State) (fs : list (string * JsValue)) :
  AuthenticatedRequest.secrets context = Some (JObj fs) ->
  SecureRoute.handleHealthCheck rt context s =
    (Ok (NextResponse.json (health_body rt fs) 200), s).
Proof.
  intros H. unfold SecureRoute.handleHealthCheck, SecureRoute.request_secrets.
  rewrite H. reflexivity.
Qed.

(** X21.  The secure health route never throws and answers 200, 401 or
    500; when it answers 200 the body is the health report of the object
    the store holds, which shows of each field only whether it is truthy.
    The handler owes this to the gate: run on a request to which no record
    was attached, it throws a TypeError. *)
Theorem secure_GET_outcomes (rt : Runtime) (req : NextRequest) (s : State) :
  (exists resp s1,
     SecureRoute.GET rt req s = (Ok (Some resp), s1) /\
     (NextResponse.status resp = 200 \/ NextResponse.status resp = 401 \/
      NextResponse.status resp = 500) /\
     (NextResponse.status resp = 200 ->
      exists fs, secrets (manager s1) = JObj fs /\
                 NextResponse.body resp = health_body rt fs)) /\
  (AuthenticatedRequest.secrets req = None ->
   exists msg, SecureRoute.handleHealthCheck rt req s = (Throw (TypeError msg), s)).
Proof.
  split.
  - unfold SecureRoute.GET, withApiKeyAuth, bind at 1.
    destruct (validateApiKey_cases rt req s)
      as [(resp & s1 & Hrun & Hkind & Hstatus)
         |(s1 & key & fs & Hne & Hcand & Hsec & Hkey & Hrun)];
      rewrite Hrun; cbn [isValid negb response request].
    + exists resp, s1. split; [reflexivity|]. split; [tauto|].
      intros H200. destruct Hstatus as [H|H]; rewrite H in H200; discriminate.
    + unfold bind.
      match goal with
      | |- context [SecureRoute.handleHealthCheck rt ?c s1] =>
          rewrite (handleHealthCheck_run rt c s1 fs eq_refl)
      end.
      eexists _, _. split; [reflexivity|]. split; [cbn; tauto|].
      intros _. exists fs. split; [exact Hsec|reflexivity].
  - intros Hnone.
    unfold SecureRoute.handleHealthCheck, SecureRoute.request_secrets.
    rewrite Hnone. eexists. reflexivity.
Qed.

Lemma secure_GET_outcomes_witness :
  exists msg,
    SecureRoute.handleHealthCheck Example.local_full
      (Example.request [] Example.no_body) initial = (Throw (TypeError msg), initial).
Proof.
  apply (proj2 (secure_GET_outcomes Example.local_full
                  (Example.request [] Example.no_body) initial)).
  reflexivity.
Defined.

Lemma handleSecureRequest_total (rt : Runtime) (random36 : string)
    (context : AuthenticatedRequest.t) (s : State) :
  exists resp s1,
    SecureRoute.handleSecureRequest rt random36 context s = (Ok resp, s1) /\
    (NextResponse.status resp = 200 \/
     resp = SecureRoute.invalid_action \/
     NextResponse.status resp = 500).
Proof.
  assert (Hfail : forall (e : Exn) (s0 : State),
            exists resp s1,
              (Ok (NextResponse.json
                     (failure_body "Failed to process request" (error_detail rt e))
                     500),
               with_console s0 [("Error in secure API:", e)]) = (Ok resp, s1) /\
              (NextResponse.status resp = 200 \/
               resp = SecureRoute.invalid_action \/
               NextResponse.status resp = 500)).
  { intros e s0. eexists _, _. split; [reflexivity|]. cbn. tauto. }
  assert (Hok : forall (body : JsValue) (s0 : State),
            exists resp s1,
              (Ok (NextResponse.json body 200), s0) = (Ok resp, s1) /\
              (NextResponse.status resp = 200 \/
               resp = SecureRoute.invalid_action \/
               NextResponse.status resp = 500)).
  { intros body s0. eexists _, _. split; [reflexivity|]. cbn. tauto. }
  unfold SecureRoute.handleSecureRequest, try_catch, bind, request_json.
  destruct (AuthenticatedRequest.json context) as [parsed|e]; [|apply Hfail].
  destruct (destructure parsed "action" s) as [[action|e] s0]; [|apply Hfail].
  destruct (get_prop parsed "data" s0) as [[data|e] s1]; [|apply Hfail].
  destruct (strict_eq_str "getUserData" action).
  { destruct (get_prop _ "databaseUrl" s1) as [[v1|e] s2]; [|apply Hfail].
    destruct (get_prop _ "apiKey" s2) as [[v2|e] s3]; [|apply Hfail].
    apply Hok. }
  destruct (strict_eq_str "processPayment" action).
  { destruct (get_prop _ "stripeSecretKey" s1) as [[v1|e] s2]; [|apply Hfail].
    apply Hok. }
  destruct (strict_eq_str "generateToken" action).
  { destruct (get_prop _ "jwtSecret" s1) as [[v1|e] s2]; [|apply Hfail].
    apply Hok. }
  destruct (strict_eq_str "cacheOperation" action).
  { destruct (get_prop _ "redisUrl" s1) as [[v1|e] s2]; [|apply Hfail].
    apply Hok. }
  eexists _, _. split; [reflexivity|]. tauto.
Qed.

(** X22.  The secure POST route never throws, whatever the request, the
    random text and the state: it answers 200, 401 or 500, or with status
    400 the one response that lists the four supported actions. *)
Theorem secure_POST_outcomes (rt : Runtime) (random36 : string)
    (req : NextRequest) (s : State) :
  exists resp s1,
    SecureRoute.POST rt random36 req s = (Ok (Some resp), s1) /\
    (NextResponse.status resp = 200 \/ NextResponse.status resp = 401 \/
     NextResponse.status resp = 500 \/ resp = SecureRoute.invalid_action) /\
    NextResponse.status SecureRoute.invalid_action = 400.
Proof.
  unfold SecureRoute.POST, withApiKeyAuth, bind at 1.
  destruct (validateApiKey_cases rt req s)
    as [(resp & s1 & Hrun & Hkind & Hstatus)
       |(s1 & key & fs & Hne & Hcand & Hsec & Hkey & Hrun)];
    rewrite Hrun; cbn [isValid negb response request].
  - exists resp, s1. split; [reflexivity|]. split; [tauto|reflexivity].
  - unfold bind.
    match goal with
    | |- context [SecureRoute.handleSecureRequest rt random36 ?c s1] =>
        destruct (handleSecureRequest_total rt random36 c s1)
          as (resp & s2 & Hh & Hs)
    end.
    rewrite Hh. exists resp, s2. split; [reflexivity|].
    split; [tauto|reflexivity].
Qed.

(** X23.  Behind the gate, the secure POST handler uses the record only
    to tell which fields are truthy: run on the same request body, with
    the same random text, two contexts whose attached objects agree on the
    truthiness of the five fields get the same response.  In particular
    the generated token does not depend on the jwtSecret value. *)
Theorem handleSecureRequest_reveals_truthiness_only (rt : Runtime)
    (random36 : string) (context context' : AuthenticatedRequest.t)
    (s s' : State) (fs fs' : list (string * JsValue)) :
  AuthenticatedRequest.json context = AuthenticatedRequest.json context' ->
  AuthenticatedRequest.secrets context = Some (JObj fs) ->
  AuthenticatedRequest.secrets context' = Some (JObj fs') ->
  same_truthiness fs fs' ->
  fst (SecureRoute.handleSecureRequest rt random36 context s) =
  fst (SecureRoute.handleSecureRequest rt random36 context' s').
Proof.
  intros Hjson Hsec Hsec' Hsame.
  unfold SecureRoute.handleSecureRequest, SecureRoute.request_secrets,
    try_catch, bind, request_json.
  rewrite Hsec, Hsec', <- Hjson.
  destruct (AuthenticatedRequest.json context) as [parsed|e]; [|reflexivity].
  destruct parsed as [| |b|n|t|items|fields];
    cbn [destructure get_prop ret throw];
    try reflexivity;
    cbn [strict_eq_str]; try reflexivity.
  assert (H1 := Hsame "databaseUrl" ltac:(cbn; tauto)).
  assert (H2 := Hsame "apiKey" ltac:(cbn; tauto)).
  assert (H3 := Hsame "jwtSecret" ltac:(cbn; tauto)).
  assert (H4 := Hsame "redisUrl" ltac:(cbn; tauto)).
  assert (H5 := Hsame "stripeSecretKey" ltac:(cbn; tauto)).
  repeat match goal with
         | |- context [strict_eq_str ?k ?a] => destruct (strict_eq_str k a)
         end;
    cbn [fst]; unfold SecureRoute.choose;
    rewrite ?H1, ?H2, ?H3, ?H4, ?H5; reflexivity.
Qed.

Lemma handleSecureRequest_reveals_truthiness_only_witness :
  let context (r : AppSecrets.t) : AuthenticatedRequest.t :=
    {| AuthenticatedRequest.header_lines := [ ("Authorization", "Bearer K1") ];
       AuthenticatedRequest.json := Scenario.action "generateToken";
       AuthenticatedRequest.apiKey := Some "K1";
       AuthenticatedRequest.secrets := Some (AppSecrets.object r) |} in
  fst (SecureRoute.handleSecureRequest Example.local_full "0.4fzyo82mvyr"
         (context Example.record) initial) =
  fst (SecureRoute.handleSecureRequest Example.local_full "0.4fzyo82mvyr"
         (context (env_record Example.local_year)) initial).
Proof.
  intros context.
  apply (handleSecureRequest_reveals_truthiness_only Example.local_full
           "0.4fzyo82mvyr" (context Example.record)
           (context (env_record Example.local_year)) initial initial
           (Object_entries (AppSecrets.object Example.record))
           (Object_entries (AppSecrets.object (env_record Example.local_year))));
    try reflexivity.
  intros k Hk. cbn in Hk.
  destruct Hk as [<- | [<- | [<- | [<- | [<- | []]]]]]; reflexivity.
Defined.

Lemma validateApiKey_ready_match (rt : Runtime) (req : NextRequest) (s : State)
    (fs : list (string * JsValue)) (key : string) :
  isInitialized (manager s) = true ->
  secrets (manager s) = JObj fs ->
  assoc "apiKey" fs = JStr key ->
  key <> EmptyString ->
  providedApiKey
    (Headers.get (AuthenticatedRequest.headers req) "authorization")
    (Headers.get (AuthenticatedRequest.headers req) "x-api-key") = Some key ->
  validateApiKey rt req s =
    (Ok {| isValid := true;
           request :=
             {| AuthenticatedRequest.header_lines :=
                  AuthenticatedRequest.header_lines req;
                AuthenticatedRequest.json := AuthenticatedRequest.json req;
                AuthenticatedRequest.apiKey := Some key;
                AuthenticatedRequest.secrets := Some (JObj fs) |};
           response := None |},
     with_trace s [EvGetSecrets]).
Proof.
  intros Hinit Hsec Hkey Hne Hcand.
  unfold validateApiKey. rewrite Hcand.
  destruct key as [|c key]; [congruence|]. cbn [absent default from_option].
  cbv [id]. unfold try_catch, bind.
  rewrite (getSecrets_ready rt s fs Hinit Hsec). cbn [get_prop ret].
  rewrite Hkey. cbn [truthy Str.is_empty negb strict_eq_str].
  rewrite String.eqb_refl. reflexivity.
Qed.

(** X24.  Header fallback, end to end: with a ready store whose apiKey is
    a non-empty string, a request whose only header is X-API-Key (in any
    letter case, with any whitespace around the value) carrying that key
    passes the gate of the secure health route and is answered 200 with
    the health report of the stored object. *)
Theorem secure_GET_accepts_api_key_header (rt : Runtime) (req : NextRequest)
    (s : State) (fs : list (string * JsValue)) (name raw key : string) :
  isInitialized (manager s) = true ->
  secrets (manager s) = JObj fs ->
  assoc "apiKey" fs = JStr key ->
  key <> EmptyString ->
  AuthenticatedRequest.header_lines req = [ (name, raw) ] ->
  Str.lower name = "x-api-key" ->
  Headers.normalize raw = key ->
  SecureRoute.GET rt req s =
    (Ok (Some (NextResponse.json (health_body rt fs) 200)),
     with_trace s [EvGetSecrets]).
Proof.
  intros Hinit Hsec Hkey Hne Hlines Hname Hraw.
  assert (Hcand : providedApiKey
            (Headers.get (AuthenticatedRequest.headers req) "authorization")
            (Headers.get (AuthenticatedRequest.headers req) "x-api-key")
          = Some key).
  { unfold AuthenticatedRequest.headers. rewrite Hlines.
    unfold Headers.get, Headers.values, Headers.of_lines, Headers.entry.
    cbn [List.map List.filter fst snd]. rewrite Hname, Hraw. reflexivity. }
  unfold SecureRoute.GET, withApiKeyAuth, bind.
  rewrite (validateApiKey_ready_match rt req s fs key) by assumption.
  cbn [isValid negb request].
  match goal with
  | |- context [SecureRoute.handleHealthCheck rt ?c ?st] =>
      rewrite (handleHealthCheck_run rt c st fs eq_refl)
  end.
  reflexivity.
Qed.

Lemma secure_GET_accepts_api_key_header_witness :
  SecureRoute.GET Example.local_full
    (Example.request [ ("X-API-Key", " K1 ") ] Example.no_body)
    (Example.ready Example.record) =
    (Ok (Some (NextResponse.json
                 (health_body Example.local_full
                    (Object_entries (AppSecrets.object Example.record))) 200)),
     with_trace (Example.ready Example.record) [EvGetSecrets]).
Proof.
  apply (secure_GET_accepts_api_key_header Example.local_full
           (Example.request [ ("X-API-Key", " K1 ") ] Example.no_body)
           (Example.ready Example.record)
           (Object_entries (AppSecrets.object Example.record))
           "X-API-Key" " K1 " "K1"); try reflexivity.
  discriminate.
Defined.

(** X25.  A successful read through the helper [getSecrets()] can be
    repeated for free: in whatever state the first call was made, the
    store is initialised after it, and every later call returns the same
    value, adds only its own entry to the trace and performs no load. *)
Theorem getSecrets_repeatable (rt : Runtime) (s s1 : State) (v : JsValue) :
  getSecrets rt s = (Ok v, s1) ->
  isInitialized (manager s1) = true /\
  getSecrets rt s1 = (Ok v, with_trace s1 [EvGetSecrets]) /\
  loads (trace (snd (getSecrets rt s1))) = loads (trace s1).
Proof.
  intros Hget.
  destruct (getSecrets_ok rt s s1 v Hget) as [Htruthy Hstored].
  assert (Hinit : isInitialized (manager s1) = true).
  { destruct (isInitialized (manager s)) eqn:Hi.
    - rewrite getSecrets_initialized in Hget by exact Hi.
      injection Hget as _ <-. exact Hi.
    - rewrite getSecrets_fresh in Hget by exact Hi.
      destruct (SecretsManager.initialize rt _) as [[[]|e] s'] eqn:E;
        [|discriminate].
      destruct (initialize_idempotent rt _ s' E) as [Hflag _].
      revert Hget. unfold SecretsManager.getSecrets, bind, this, ret, throw.
      destruct (negb (truthy (secrets (manager s')))); [discriminate|].
      now intros [= _ <-]. }
  assert (Hagain : getSecrets rt s1 = (Ok v, with_trace s1 [EvGetSecrets])).
  { rewrite getSecrets_initialized by exact Hinit.
    now rewrite Hstored, Htruthy. }
  split; [exact Hinit|]. split; [exact Hagain|].
  rewrite Hagain. cbn [snd with_trace trace]. rewrite loads_app. cbn. lia.
Qed.

Lemma getSecrets_repeatable_witness :
  exists v s1,
    getSecrets Example.local_full initial = (Ok v, s1) /\
    isInitialized (manager s1) = true /\
    getSecrets Example.local_full s1 = (Ok v, with_trace s1 [EvGetSecrets]) /\
    loads (trace (snd (getSecrets Example.local_full s1))) = loads (trace s1).
Proof.
  eexists _, _. split; [vm_compute; reflexivity|].
  apply (getSecrets_repeatable Example.local_full initial).
  vm_compute. reflexivity.
Defined.
